(** * faststream.broker.push_back_watcher

    A shallow embedding of the acknowledgement / retry coordination code of
    [faststream/broker/push_back_watcher.py]: the three watchers
    ([EndlessWatcher], [OneTryWatcher], [CounterWatcher]) behind the
    [BaseWatcher] interface, and [WatcherContext], the asynchronous context
    manager that decides which of [ack] / [nack] / [reject] a message gets.

    Python integers are unbounded, so counts and [max_tries] are [Z].  The
    [collections.Counter] held by [CounterWatcher] is a [gmap string Z].
    Mutation of [self] is explicit state passing; the calls the context makes
    on the message and on the watcher are recorded, in order, in a log that is
    threaded through a small state-and-exception monad: a call on the message
    returns or raises, as the broker behind it decides. *)

From Stdlib Require Import ZArith Lia.
From stdpp Require Import gmap strings list fin_maps pretty.

Local Open Scope Z_scope.

(** ** [collections.Counter]

    The part of the standard [Counter] (a [dict] subclass) that the watcher
    uses.  Reading a missing key goes through [__missing__], which answers
    [0] and stores nothing; [+=] between counters adds the counts of the
    right operand and then keeps the strictly positive entries only. *)
Module Counter.

Definition __missing__ (key : string) : Z := 0.

Definition __getitem__ (self : gmap string Z) (key : string) : Z :=
  match self !! key with
  | Some count => count
  | None => __missing__ key
  end.

Definition __setitem__ (self : gmap string Z) (key : string) (count : Z)
  : gmap string Z :=
  <[key := count]> self.

(** [nonpositive = [elem for elem, count in self.items() if not count > 0]],
    then [del self[elem]] for each of them. *)
Definition _keep_positive (self : gmap string Z) : gmap string Z :=
  filter (λ item : string * Z, 0 < item.2) self.

(** [for elem, count in other.items(): self[elem] += count], then
    [return self._keep_positive()]. *)
Definition __iadd__ (self other : gmap string Z) : gmap string Z :=
  _keep_positive
    (map_fold (λ elem count acc,
                 __setitem__ acc elem (__getitem__ acc elem + count))
              self other).

End Counter.

(** ** The logger

    [logging.Logger] is an external object; what the watcher does with it is
    to emit error records.  A logger is modelled by the records it has been
    handed, oldest first. *)
Definition Logger : Type := list string.

Definition Logger_error (self : Logger) (msg : string) : Logger :=
  self ++ [msg].

(** ** [BaseWatcher]: the abstract interface

    [add] and [remove] return nothing and may mutate the watcher; [is_max]
    returns a [bool] and may mutate it too (the counter watcher logs). *)
Class BaseWatcher (W : Type) : Type := {
  add : W → string → W;
  is_max : W → string → bool * W;
  remove : W → string → W
}.

(** ** [EndlessWatcher] *)
Module EndlessWatcher.

Record t : Type := __init__ { max_tries : Z; logger : option Logger }.

Definition add (self : t) (message_id : string) : t := self.
Definition is_max (self : t) (message_id : string) : bool * t := (false, self).
Definition remove (self : t) (message_id : string) : t := self.

End EndlessWatcher.

(** ** [OneTryWatcher] *)
Module OneTryWatcher.

Record t : Type := __init__ { max_tries : Z; logger : option Logger }.

Definition add (self : t) (message_id : string) : t := self.
Definition is_max (self : t) (message_id : string) : bool * t := (true, self).
Definition remove (self : t) (message_id : string) : t := self.

End OneTryWatcher.

(** ** [CounterWatcher] *)
Module CounterWatcher.

Record t : Type := {
  max_tries : Z;
  logger : option Logger;
  memory : gmap string Z
}.

Definition with_memory (self : t) (m : gmap string Z) : t :=
  {| max_tries := max_tries self; logger := logger self; memory := m |}.

Definition with_logger (self : t) (l : option Logger) : t :=
  {| max_tries := max_tries self; logger := l; memory := memory self |}.

(** [super().__init__(logger=logger, max_tries=max_tries)]
    [self.memory = Counter()] *)
Definition __init__ (max_tries : Z) (logger : option Logger) : t :=
  {| max_tries := max_tries; logger := logger; memory := ∅ |}.

(** [self.memory[message_id] += 1] *)
Definition add (self : t) (message_id : string) : t :=
  with_memory self
    (Counter.__setitem__ (memory self) message_id
       (Counter.__getitem__ (memory self) message_id + 1)).

(** [is_max = self.memory[message_id] > self.max_tries], one error record
    when a logger is configured, [return is_max]. *)
Definition is_max (self : t) (message_id : string) : bool * t :=
  let is_max := bool_decide (Counter.__getitem__ (memory self) message_id
                             > max_tries self) in
  let self :=
    match logger self with
    | Some log =>
        if is_max
        then with_logger self
               (Some (Logger_error log
                        ("Already retried " +:+ pretty (max_tries self)
                           +:+ " times. Skipped.")))
        else with_logger self
               (Some (Logger_error log
                        "Error is occured. Pushing back to queue."))
    | None => self
    end in
  (is_max, self).

(** [self.memory[message] = 0]
    [self.memory += Counter()] *)
Definition remove (self : t) (message : string) : t :=
  let self := with_memory self (Counter.__setitem__ (memory self) message 0) in
  with_memory self (Counter.__iadd__ (memory self) ∅).

End CounterWatcher.

#[export] Instance EndlessWatcher_BaseWatcher : BaseWatcher EndlessWatcher.t := {
  add := EndlessWatcher.add;
  is_max := EndlessWatcher.is_max;
  remove := EndlessWatcher.remove
}.

#[export] Instance OneTryWatcher_BaseWatcher : BaseWatcher OneTryWatcher.t := {
  add := OneTryWatcher.add;
  is_max := OneTryWatcher.is_max;
  remove := OneTryWatcher.remove
}.

#[export] Instance CounterWatcher_BaseWatcher : BaseWatcher CounterWatcher.t := {
  add := CounterWatcher.add;
  is_max := CounterWatcher.is_max;
  remove := CounterWatcher.remove
}.

(** ** Exceptions

    Modelled from the spec: [faststream/exceptions.py] is not among the
    sources.  The four outcome signals [AckMessage], [NackMessage],
    [RejectMessage] and [SkipMessage] are distinct classes; the context
    tests the first three under [isinstance(exc_val, HandlerException)], so
    they derive from [HandlerException], and tests [SkipMessage] on its own,
    before that, so that nothing below depends on whether [SkipMessage]
    derives from [HandlerException] as well.  An exception value is
    identified with its class: [HandlerException] stands for an instance of that class which is none of
    the signals, [Builtin name] for any exception outside this taxonomy
    ([RuntimeError], [ValueError], [CancelledError], ...). *)
Inductive exception : Type :=
| SkipMessage
| HandlerException
| AckMessage
| NackMessage
| RejectMessage
| Builtin (name : string).

#[export] Instance exception_eq_dec : EqDecision exception.
Proof. solve_decision. Defined.

Definition issubclass (cls base : exception) : bool :=
  match cls, base with
  | AckMessage, HandlerException
  | NackMessage, HandlerException
  | RejectMessage, HandlerException => true
  | _, _ => bool_decide (cls = base)
  end.

Definition isinstance (exc_val cls : exception) : bool := issubclass exc_val cls.

(** ** Messages, the broker, and the log of calls *)

(** How a call ends: it returns a value or raises an exception. *)
Inductive outcome (A : Type) : Type :=
| returned (a : A)
| raised (error : exception).

Arguments returned {A} a.
Arguments raised {A} error.

Section context.

(** The values of the keyword arguments forwarded to the broker. *)
Context {Any : Type}.

(** [StreamMessage] lives outside this module; the context reads its
    [message_id] and calls its [ack], [nack] and [reject], which belong to
    the broker client. *)
Record StreamMessage : Type := { message_id : string }.

(** One entry per call made on the message or on the watcher. *)
Inductive call : Type :=
| message_ack (message : StreamMessage) (kwargs : gmap string Any)
| message_nack (message : StreamMessage) (kwargs : gmap string Any)
| message_reject (message : StreamMessage) (kwargs : gmap string Any)
| watcher_add (message_id : string)
| watcher_is_max (message_id : string)
| watcher_remove (message_id : string).

(** The watcher is shared by every context of a handler, so it is part of
    the state the contexts run in, next to the log.  [broker] stands for the
    broker client behind the three operations of the message: from the calls
    made so far and the call being made, it says whether that call returns
    ([None]) or raises ([Some error]: a lost connection, a cancellation).
    Nothing in this module changes it. *)
Context {W : Type} `{!BaseWatcher W}.

Record world : Type := {
  the_watcher : W;
  calls : list call;
  broker : list call → call → option exception
}.

(** A state and exception monad over [world], with stdpp's [mret] and
    [≫=]: what follows a call that raised is skipped. *)
Definition M (A : Type) : Type := world → outcome A * world.

#[export] Instance M_ret : MRet M := λ A (a : A) w, (returned a, w).

#[export] Instance M_bind : MBind M :=
  λ A B (k : A → M B) (c : M A) w,
    match c w with
    | (returned a, w') => k a w'
    | (raised error, w') => (raised error, w')
    end.

Definition raise {A} (error : exception) : M A := λ w, (raised error, w).

(** [try: body] with what follows when it returns and when it raises. *)
Definition try_except {A B} (body : M A) (on_return : A → M B)
    (on_raise : exception → M B) : M B :=
  λ w, match body w with
       | (returned a, w') => on_return a w'
       | (raised error, w') => on_raise error w'
       end.

Definition record (c : call) : M unit :=
  λ w, (returned tt,
        {| the_watcher := the_watcher w;
           calls := calls w ++ [c];
           broker := broker w |}).

Definition on_watcher {A} (f : W → A * W) : M A :=
  λ w, let (a, s) := f (the_watcher w) in
       (returned a,
        {| the_watcher := s; calls := calls w; broker := broker w |}).

(** [await call_or_await(operation, **kwargs)] for an operation of the
    message: the call is made, and it returns or raises as the broker
    decides. *)
Definition call_or_await (c : call) : M unit :=
  λ w, (match broker w (calls w) c with
        | None => returned tt
        | Some error => raised error
        end,
        {| the_watcher := the_watcher w;
           calls := calls w ++ [c];
           broker := broker w |}).

End context.

Arguments StreamMessage : clear implicits.
Arguments call : clear implicits.
Arguments world : clear implicits.
Arguments M : clear implicits.

(** ** [WatcherContext] *)
Module WatcherContext.
Section methods.

Context {Any W : Type} `{!BaseWatcher W}.

(** [self.watcher] is the shared watcher of the [world]; the record keeps
    the two attributes that belong to the context alone. *)
Record t : Type := {
  message : StreamMessage;
  extra_ack_args : gmap string Any
}.

(** [self.extra_ack_args = extra_ack_args or {}] *)
Definition __init__ (message : StreamMessage) (extra_ack_args : gmap string Any)
  : t :=
  {| message := message;
     extra_ack_args :=
       if decide (extra_ack_args = ∅) then ∅ else extra_ack_args |}.

(** The three calls [self.watcher.add / is_max / remove]. *)
Definition self_watcher_add (message_id : string) : M Any W unit :=
  record (watcher_add message_id) ;;
  on_watcher (λ s, (tt, add s message_id)).

Definition self_watcher_is_max (message_id : string) : M Any W bool :=
  record (watcher_is_max message_id) ;;
  on_watcher (λ s, is_max s message_id).

Definition self_watcher_remove (message_id : string) : M Any W unit :=
  record (watcher_remove message_id) ;;
  on_watcher (λ s, (tt, remove s message_id)).

(** [await call_or_await(self.message.ack, **self.extra_ack_args)]
    [self.watcher.remove(self.message.message_id)] *)
Definition __ack (self : t) : M Any W unit :=
  call_or_await (message_ack (message self) (extra_ack_args self)) ;;
  self_watcher_remove (message_id (message self)).

(** [await call_or_await(self.message.nack, **self.extra_ack_args)] *)
Definition __nack (self : t) : M Any W unit :=
  call_or_await (message_nack (message self) (extra_ack_args self)).

(** [await call_or_await(self.message.reject, **self.extra_ack_args)]
    [self.watcher.remove(self.message.message_id)] *)
Definition __reject (self : t) : M Any W unit :=
  call_or_await (message_reject (message self) (extra_ack_args self)) ;;
  self_watcher_remove (message_id (message self)).

(** [self.watcher.add(self.message.message_id)] *)
Definition __aenter__ (self : t) : M Any W unit :=
  self_watcher_add (message_id (message self)).

(** [exc] is [None] when the body raised nothing ([exc_type] is [None],
    hence falsy), and [Some exc_val] otherwise.  The method returns a
    boolean, or raises what a call on the message raised. *)
Definition __aexit__ (self : t) (exc : option exception) : M Any W bool :=
  match exc with
  | None =>
      __ack self ;;
      mret false
  | Some exc_val =>
      if isinstance exc_val SkipMessage then
        self_watcher_remove (message_id (message self)) ;;
        mret false
      else if isinstance exc_val HandlerException then
        (if isinstance exc_val AckMessage then
           __ack self
         else if isinstance exc_val NackMessage then
           (exhausted ← self_watcher_is_max (message_id (message self));
            if exhausted : bool then __reject self else __nack self)
         else if isinstance exc_val RejectMessage then
           __reject self
         else
           mret tt) ;;
        mret true
      else
        exhausted ← self_watcher_is_max (message_id (message self));
        (if exhausted : bool then __reject self else __nack self) ;;
        mret false
  end.

(** [async with self: body], as the language defines it: [__aenter__], then
    the body; if the body returns, [__aexit__(None, None, None)]; if it
    raises, [__aexit__] with that exception, which then leaves the statement
    unless [__aexit__] returned true.  An exception raised by [__aexit__]
    itself leaves the statement. *)
Definition async_with (self : t) (body : M Any W unit) : M Any W unit :=
  __aenter__ self ;;
  try_except body
    (λ _, __aexit__ self None ;; mret tt)
    (λ exc_val,
       suppress ← __aexit__ self (Some exc_val);
       if suppress : bool then mret tt else raise exc_val).

End methods.
Arguments t : clear implicits.
End WatcherContext.

(** A handler body that makes no call on the watcher or on the message and
    ends as [exc] says: it returns, or it raises [exc_val]. *)
Definition ending {Any W : Type} (exc : option exception) : M Any W unit :=
  match exc with
  | None => mret tt
  | Some exc_val => raise exc_val
  end.

(** The acknowledgement calls of a log. *)
Definition is_ack {Any} (c : call Any) : bool :=
  match c with message_ack _ _ => true | _ => false end.
Definition is_nack {Any} (c : call Any) : bool :=
  match c with message_nack _ _ => true | _ => false end.
Definition is_reject {Any} (c : call Any) : bool :=
  match c with message_reject _ _ => true | _ => false end.
Definition is_terminal {Any} (c : call Any) : bool :=
  is_ack c || is_nack c || is_reject c.
Definition is_watcher_call {Any} (c : call Any) : bool :=
  match c with
  | watcher_add _ | watcher_is_max _ | watcher_remove _ => true
  | _ => false
  end.

Definition count_calls {Any} (p : call Any → bool) (log : list (call Any)) : nat :=
  length (filter (λ c, p c = true) log).

(** Sequences of calls on a counter watcher. *)
Inductive watcher_op : Type :=
| op_add (message_id : string)
| op_is_max (message_id : string)
| op_remove (message_id : string).

Definition run_op (self : CounterWatcher.t) (o : watcher_op) : CounterWatcher.t :=
  match o with
  | op_add message_id => CounterWatcher.add self message_id
  | op_is_max message_id => (CounterWatcher.is_max self message_id).2
  | op_remove message_id => CounterWatcher.remove self message_id
  end.

Definition run_ops (self : CounterWatcher.t) (ops : list watcher_op)
  : CounterWatcher.t :=
  foldl run_op self ops.

(** [add] called [n] times for one id. *)
Definition add_times (n : nat) (message_id : string) (self : CounterWatcher.t)
  : CounterWatcher.t :=
  Nat.iter n (λ s, CounterWatcher.add s message_id) self.

(** Every stored count is strictly positive. *)
Definition positive_counts (self : CounterWatcher.t) : Prop :=
  map_Forall (λ _ count, 0 < count) (CounterWatcher.memory self).

(** The world [w] once the watcher has become [s] and the calls [new] have
    been made. *)
Definition world_after {Any W : Type} (w : world Any W) (s : W)
    (new : list (call Any)) : world Any W :=
  {| the_watcher := s; calls := calls w ++ new; broker := broker w |}.

(** Every call that the broker of [w] receives returns. *)
Definition calls_return {Any W : Type} (w : world Any W) : Prop :=
  ∀ log c, broker w log c = None.

(** A message, a context around it, and two worlds with a fresh counter
    watcher ([max_tries = 2], no logger) for the examples: one whose broker
    answers every call, one whose broker has lost its connection. *)
Definition example_message : StreamMessage := {| message_id := "m" |}.

Definition example_context : WatcherContext.t Z :=
  WatcherContext.__init__ example_message ∅.

Definition example_world : world Z CounterWatcher.t :=
  {| the_watcher := CounterWatcher.__init__ 2 None;
     calls := [];
     broker := λ _ _, None |}.

Definition disconnected_world : world Z CounterWatcher.t :=
  {| the_watcher := CounterWatcher.__init__ 2 None;
     calls := [];
     broker := λ _ _, Some (Builtin "ConnectionError") |}.

(** The message id a call on the counter watcher is about. *)
Definition op_message_id (o : watcher_op) : string :=
  match o with
  | op_add message_id | op_is_max message_id | op_remove message_id => message_id
  end.

(** The world after [n] scopes in a row around one context, the handler
    ending the same way in each of them. *)
Definition after_scopes {Any W : Type} `{!BaseWatcher W} (n : nat)
    (self : WatcherContext.t Any) (handler : M Any W unit)
    (w : world Any W) : world Any W :=
  Nat.iter n (λ w, (WatcherContext.async_with self handler w).2) w.

(** The calls of one whole scope, entry included, that ends in [nack], and
    of one that ends in [reject]. *)
Definition nack_round {Any : Type} (self : WatcherContext.t Any) : list (call Any) :=
  [watcher_add (message_id (WatcherContext.message self));
   watcher_is_max (message_id (WatcherContext.message self));
   message_nack (WatcherContext.message self) (WatcherContext.extra_ack_args self)].

Definition reject_round {Any : Type} (self : WatcherContext.t Any) : list (call Any) :=
  [watcher_add (message_id (WatcherContext.message self));
   watcher_is_max (message_id (WatcherContext.message self));
   message_reject (WatcherContext.message self) (WatcherContext.extra_ack_args self);
   watcher_remove (message_id (WatcherContext.message self))].

Definition is_is_max_call {Any : Type} (c : call Any) : bool :=
  match c with watcher_is_max _ => true | _ => false end.

Definition is_remove_call {Any : Type} (c : call Any) : bool :=
  match c with watcher_remove _ => true | _ => false end.

(** ** Proof steps shared by the lemmas on the context *)

(** Decides the [isinstance] tests whose arguments are known classes. *)
Ltac eval_isinstance :=
  repeat match goal with
  | |- context [isinstance ?exc_val ?cls] =>
      let b := eval vm_compute in (isinstance exc_val cls) in
      match b with true => idtac | false => idtac end;
      change (isinstance exc_val cls) with b
  end;
  cbv iota.

(** Counts the calls of a kind in an explicit list of calls. *)
Ltac count_new_calls :=
  repeat match goal with
  | |- context [count_calls ?p (?c :: ?l)] =>
      let n := eval vm_compute in (count_calls p (c :: l)) in
      change (count_calls p (c :: l)) with n
  end.

(** Unfolds the monadic plumbing of a context method applied to a world. *)
Ltac run_context :=
  unfold WatcherContext.async_with, WatcherContext.__aexit__,
    WatcherContext.__aenter__, ending;
  eval_isinstance;
  unfold WatcherContext.__ack, WatcherContext.__nack,
    WatcherContext.__reject, WatcherContext.self_watcher_add,
    WatcherContext.self_watcher_is_max, WatcherContext.self_watcher_remove,
    mbind, M_bind, mret, M_ret, raise, try_except, record, on_watcher,
    call_or_await;
  cbn [the_watcher calls broker fst snd].

(** * Properties of the counter *)
Section counter_facts.

Implicit Types (m : gmap string Z) (k : string) (self : CounterWatcher.t).

Lemma iadd_empty m : Counter.__iadd__ m ∅ = Counter._keep_positive m.
Proof. unfold Counter.__iadd__. by rewrite map_fold_empty. Qed.

Lemma keep_positive_lookup_Some m k v :
  Counter._keep_positive m !! k = Some v ↔ m !! k = Some v ∧ 0 < v.
Proof. unfold Counter._keep_positive. by rewrite map_lookup_filter_Some. Qed.

Lemma keep_positive_forall m :
  map_Forall (λ _ count, 0 < count) (Counter._keep_positive m).
Proof. intros k v Hk. by apply keep_positive_lookup_Some in Hk as [_ ?]. Qed.

Lemma keep_positive_id m :
  map_Forall (λ _ count, 0 < count) m → Counter._keep_positive m = m.
Proof.
  intros Hpos. apply map_eq. intros k.
  destruct (m !! k) as [v|] eqn:Hk.
  - apply keep_positive_lookup_Some. split; [done | by eapply Hpos].
  - unfold Counter._keep_positive. apply map_lookup_filter_None. left. done.
Qed.

Lemma memory_add self k :
  CounterWatcher.memory (CounterWatcher.add self k)
  = <[k := Counter.__getitem__ (CounterWatcher.memory self) k + 1]>
      (CounterWatcher.memory self).
Proof. reflexivity. Qed.

Lemma getitem_add self k :
  Counter.__getitem__ (CounterWatcher.memory (CounterWatcher.add self k)) k
  = Counter.__getitem__ (CounterWatcher.memory self) k + 1.
Proof.
  rewrite memory_add. unfold Counter.__getitem__ at 1.
  by rewrite lookup_insert_eq.
Qed.

Lemma result_is_max_add self k :
  (CounterWatcher.is_max (CounterWatcher.add self k) k).1
  = bool_decide (Counter.__getitem__ (CounterWatcher.memory self) k + 1
                 > CounterWatcher.max_tries self).
Proof.
  unfold CounterWatcher.is_max. cbn [fst]. by rewrite getitem_add.
Qed.

Lemma memory_is_max self k :
  CounterWatcher.memory (CounterWatcher.is_max self k).2
  = CounterWatcher.memory self.
Proof.
  unfold CounterWatcher.is_max. simpl.
  destruct (CounterWatcher.logger self); [case_bool_decide |]; reflexivity.
Qed.

Lemma max_tries_is_max self k :
  CounterWatcher.max_tries (CounterWatcher.is_max self k).2
  = CounterWatcher.max_tries self.
Proof.
  unfold CounterWatcher.is_max. simpl.
  destruct (CounterWatcher.logger self); [case_bool_decide |]; reflexivity.
Qed.

Lemma result_is_max self k :
  (CounterWatcher.is_max self k).1
  = bool_decide (Counter.__getitem__ (CounterWatcher.memory self) k
                 > CounterWatcher.max_tries self).
Proof. reflexivity. Qed.

Lemma memory_remove self k :
  CounterWatcher.memory (CounterWatcher.remove self k)
  = Counter._keep_positive (<[k := 0]> (CounterWatcher.memory self)).
Proof. unfold CounterWatcher.remove. simpl. by rewrite iadd_empty. Qed.

Lemma memory_remove_lookup self k :
  CounterWatcher.memory (CounterWatcher.remove self k) !! k = None.
Proof.
  rewrite memory_remove.
  destruct (Counter._keep_positive _ !! k) as [v|] eqn:Hk; [|done].
  apply keep_positive_lookup_Some in Hk as [Hk Hv].
  rewrite lookup_insert_eq in Hk. injection Hk as <-. lia.
Qed.

Lemma memory_remove_lookup_ne self k k' :
  k ≠ k' →
  CounterWatcher.memory (CounterWatcher.remove self k) !! k'
  = Counter._keep_positive (CounterWatcher.memory self) !! k'.
Proof.
  intros Hne. rewrite memory_remove. unfold Counter._keep_positive.
  rewrite !map_lookup_filter. by rewrite lookup_insert_ne.
Qed.

Lemma positive_init K logger : positive_counts (CounterWatcher.__init__ K logger).
Proof. apply map_Forall_empty. Qed.

Lemma positive_getitem self k :
  positive_counts self → 0 ≤ Counter.__getitem__ (CounterWatcher.memory self) k.
Proof.
  intros Hpos. unfold Counter.__getitem__, Counter.__missing__.
  destruct (CounterWatcher.memory self !! k) as [v|] eqn:Hk; [|done].
  apply Hpos in Hk. lia.
Qed.

Lemma positive_add self k :
  positive_counts self → positive_counts (CounterWatcher.add self k).
Proof.
  intros Hpos. unfold positive_counts. rewrite memory_add.
  apply map_Forall_insert_2; [|done].
  pose proof (positive_getitem self k Hpos). lia.
Qed.

Lemma positive_is_max self k :
  positive_counts self → positive_counts (CounterWatcher.is_max self k).2.
Proof. unfold positive_counts. by rewrite memory_is_max. Qed.

Lemma positive_remove self k : positive_counts (CounterWatcher.remove self k).
Proof. unfold positive_counts. rewrite memory_remove. apply keep_positive_forall. Qed.

Lemma positive_run_op self o :
  positive_counts self → positive_counts (run_op self o).
Proof.
  intros Hpos. destruct o as [k|k|k]; unfold run_op.
  - by apply positive_add.
  - by apply positive_is_max.
  - apply positive_remove.
Qed.

Lemma positive_run_ops ops : ∀ self,
  positive_counts self → positive_counts (run_ops self ops).
Proof.
  unfold run_ops. induction ops as [|o ops IH]; intros self Hpos; simpl.
  - done.
  - apply IH. by apply positive_run_op.
Qed.

(** On a fresh watcher, [n] calls of [add] for [k] leave the count [n]. *)
Lemma getitem_add_times K logger k n :
  Counter.__getitem__
    (CounterWatcher.memory (add_times n k (CounterWatcher.__init__ K logger))) k
  = Z.of_nat n.
Proof.
  induction n as [|n IH].
  - reflexivity.
  - change (add_times (S n) k (CounterWatcher.__init__ K logger))
      with (CounterWatcher.add
              (add_times n k (CounterWatcher.__init__ K logger)) k).
    rewrite memory_add. unfold Counter.__getitem__ at 1.
    rewrite lookup_insert_eq, IH. lia.
Qed.

Lemma max_tries_add_times self k n :
  CounterWatcher.max_tries (add_times n k self) = CounterWatcher.max_tries self.
Proof. induction n as [|n IH]; [done | by simpl]. Qed.

End counter_facts.

(** * The counter watcher: claims *)

(** C1.  On a fresh [CounterWatcher] with [max_tries = K], after [N] calls of
    [add] for one message id and no [remove], [is_max] for that id returns
    true exactly when [N > K].  This holds for every integer [K], in
    particular for every non-negative one, and whatever the logger is. *)
Theorem is_max_after_add_times (message_id : string) (K : Z)
    (logger : option Logger) (N : nat) :
  (CounterWatcher.is_max
     (add_times N message_id (CounterWatcher.__init__ K logger)) message_id).1
  = true
  ↔ Z.of_nat N > K.
Proof.
  rewrite result_is_max, getitem_add_times, max_tries_add_times.
  simpl. apply bool_decide_eq_true.
Qed.

(** C4, as stated, fails: after [add "m"] the mapping has the key ["m"], and
    after [remove "m"] it has not; no entry with count [0] is left. *)
Lemma remove_keeps_no_zero_entry :
  "m" ∈ dom (CounterWatcher.memory
               (CounterWatcher.add (CounterWatcher.__init__ 3 None) "m"))
  ∧ ("m" ∉ dom (CounterWatcher.memory
                  (CounterWatcher.remove
                     (CounterWatcher.add (CounterWatcher.__init__ 3 None) "m")
                     "m")))
  ∧ CounterWatcher.memory
      (CounterWatcher.remove
         (CounterWatcher.add (CounterWatcher.__init__ 3 None) "m") "m") !! "m"
    ≠ Some 0.
Proof.
  split; [|split].
  - apply elem_of_dom. rewrite memory_add, lookup_insert_eq. by eexists.
  - rewrite not_elem_of_dom. apply memory_remove_lookup.
  - by rewrite memory_remove_lookup.
Qed.

(** C4, amended.  After [remove(id)] the count read for [id] is zero because
    the entry of [id] has been deleted from the mapping: [id] is no longer a
    key, and the key set is included in the former one less [id]. *)
Theorem remove_resets_by_deleting (self : CounterWatcher.t) (message_id : string) :
  Counter.__getitem__
    (CounterWatcher.memory (CounterWatcher.remove self message_id)) message_id = 0
  ∧ (message_id
     ∉ dom (CounterWatcher.memory (CounterWatcher.remove self message_id)))
  ∧ dom (CounterWatcher.memory (CounterWatcher.remove self message_id))
    ⊆ dom (CounterWatcher.memory self) ∖ {[message_id]}.
Proof.
  split; [|split].
  - unfold Counter.__getitem__. by rewrite memory_remove_lookup.
  - rewrite not_elem_of_dom. apply memory_remove_lookup.
  - intros k Hk. apply elem_of_dom in Hk as [v Hk].
    destruct (decide (message_id = k)) as [->|Hne].
    + by rewrite memory_remove_lookup in Hk.
    + rewrite memory_remove_lookup_ne in Hk by done.
      apply keep_positive_lookup_Some in Hk as [Hk _].
      apply elem_of_difference. split.
      * apply elem_of_dom. by eexists.
      * set_solver.
Qed.

(** C9.  [is_max] leaves the attempt-count mapping as it was, for an id that
    is a key and for one that is not: nothing is inserted and no count is
    altered; [max_tries] is untouched too. *)
Theorem is_max_preserves_memory (self : CounterWatcher.t) (message_id : string) :
  CounterWatcher.memory (CounterWatcher.is_max self message_id).2
  = CounterWatcher.memory self
  ∧ CounterWatcher.max_tries (CounterWatcher.is_max self message_id).2
    = CounterWatcher.max_tries self.
Proof. split; [apply memory_is_max | apply max_tries_is_max]. Qed.

(** C10.  Strict positivity of every stored count is preserved by any
    sequence of [add], [is_max] and [remove] calls, and holds after any such
    sequence on a fresh watcher; [remove(id)] leaves no entry for [id], and
    whatever the state it is called in it leaves strictly positive counts
    only. *)
Theorem memory_counts_stay_positive (self : CounterWatcher.t)
    (ops : list watcher_op) :
  positive_counts self →
  positive_counts (run_ops self ops)
  ∧ (∀ K logger, positive_counts (run_ops (CounterWatcher.__init__ K logger) ops))
  ∧ (∀ message_id,
       CounterWatcher.memory
         (CounterWatcher.remove (run_ops self ops) message_id) !! message_id
       = None)
  ∧ (∀ (any : CounterWatcher.t) message_id,
       positive_counts (CounterWatcher.remove any message_id)).
Proof.
  intros Hpos. split; [|split; [|split]].
  - by apply positive_run_ops.
  - intros K logger. apply positive_run_ops, positive_init.
  - intros message_id. apply memory_remove_lookup.
  - intros any message_id. apply positive_remove.
Qed.

(** C10 at a fresh watcher and five calls. *)
Lemma memory_counts_stay_positive_witness :
  positive_counts (CounterWatcher.__init__ 3 None)
  ∧ positive_counts
      (run_ops (CounterWatcher.__init__ 3 None)
         [op_add "a"; op_add "b"; op_is_max "a"; op_remove "a"; op_add "a"]).
Proof.
  split.
  - apply positive_init.
  - exact (proj1 (memory_counts_stay_positive
                    (CounterWatcher.__init__ 3 None)
                    [op_add "a"; op_add "b"; op_is_max "a"; op_remove "a";
                     op_add "a"]
                    (positive_init 3 None))).
Defined.

(** * More on the counter watcher *)
Section counter_more.

Implicit Types (m : gmap string Z) (k : string) (self : CounterWatcher.t).

Lemma memory_add_lookup_ne self k k' :
  k ≠ k' →
  CounterWatcher.memory (CounterWatcher.add self k) !! k'
  = CounterWatcher.memory self !! k'.
Proof. intros Hne. rewrite memory_add. by rewrite lookup_insert_ne. Qed.

Lemma memory_remove_positive_lookup_ne self k k' :
  positive_counts self → k ≠ k' →
  CounterWatcher.memory (CounterWatcher.remove self k) !! k'
  = CounterWatcher.memory self !! k'.
Proof.
  intros Hpos Hne. rewrite memory_remove_lookup_ne by done.
  by rewrite keep_positive_id.
Qed.

Lemma memory_remove_delete self k :
  positive_counts self →
  CounterWatcher.memory (CounterWatcher.remove self k)
  = delete k (CounterWatcher.memory self).
Proof.
  intros Hpos. apply map_eq. intros k'.
  destruct (decide (k = k')) as [<-|Hne].
  - by rewrite memory_remove_lookup, lookup_delete_eq.
  - rewrite memory_remove_positive_lookup_ne by done.
    by rewrite lookup_delete_ne.
Qed.

Lemma getitem_add_times_from self k n :
  Counter.__getitem__ (CounterWatcher.memory (add_times n k self)) k
  = Counter.__getitem__ (CounterWatcher.memory self) k + Z.of_nat n.
Proof.
  induction n as [|n IH].
  - simpl. lia.
  - change (add_times (S n) k self)
      with (CounterWatcher.add (add_times n k self) k).
    rewrite getitem_add, IH. lia.
Qed.

Lemma run_op_lookup_ne self o k :
  positive_counts self → op_message_id o ≠ k →
  CounterWatcher.memory (run_op self o) !! k = CounterWatcher.memory self !! k.
Proof.
  intros Hpos Hne. destruct o as [id|id|id]; simpl in Hne; unfold run_op.
  - by apply memory_add_lookup_ne.
  - by rewrite memory_is_max.
  - by apply memory_remove_positive_lookup_ne.
Qed.

End counter_more.

(** X1.  Under the invariant that every stored count is positive, [remove(id)]
    is the deletion of the entry of [id]: every other entry is kept as it
    is.  Calling it again changes nothing more. *)
Theorem remove_is_delete (self : CounterWatcher.t) (message_id : string) :
  positive_counts self →
  CounterWatcher.memory (CounterWatcher.remove self message_id)
  = delete message_id (CounterWatcher.memory self)
  ∧ CounterWatcher.memory
      (CounterWatcher.remove (CounterWatcher.remove self message_id) message_id)
    = CounterWatcher.memory (CounterWatcher.remove self message_id).
Proof.
  intros Hpos. split; [by apply memory_remove_delete |].
  rewrite (memory_remove_delete (CounterWatcher.remove self message_id))
    by apply positive_remove.
  rewrite memory_remove_delete by done. apply delete_delete_eq.
Qed.

(** [remove_is_delete] at a watcher holding one attempt for ["a"] and one
    for ["b"]. *)
Lemma remove_is_delete_witness :
  positive_counts
    (run_ops (CounterWatcher.__init__ 3 None) [op_add "a"; op_add "b"])
  ∧ CounterWatcher.memory
      (CounterWatcher.remove
         (run_ops (CounterWatcher.__init__ 3 None) [op_add "a"; op_add "b"]) "a")
    = delete "a"
        (CounterWatcher.memory
           (run_ops (CounterWatcher.__init__ 3 None) [op_add "a"; op_add "b"])).
Proof.
  assert (Hpos : positive_counts
    (run_ops (CounterWatcher.__init__ 3 None) [op_add "a"; op_add "b"])).
  { apply positive_run_ops, positive_init. }
  split; [exact Hpos |].
  exact (proj1 (remove_is_delete
                  (run_ops (CounterWatcher.__init__ 3 None)
                     [op_add "a"; op_add "b"]) "a" Hpos)).
Defined.

(** X2.  After [remove(id)], one [add(id)] leaves the count [1] whatever the
    count was before, so the next [is_max(id)] answers as it does for a
    fresh watcher with the same [max_tries] after one [add]. *)
Theorem add_after_remove_is_first_attempt (self : CounterWatcher.t)
    (message_id : string) (logger : option Logger) :
  Counter.__getitem__
    (CounterWatcher.memory
       (CounterWatcher.add (CounterWatcher.remove self message_id) message_id))
    message_id
  = 1
  ∧ (CounterWatcher.is_max
       (CounterWatcher.add (CounterWatcher.remove self message_id) message_id)
       message_id).1
    = (CounterWatcher.is_max
         (CounterWatcher.add
            (CounterWatcher.__init__ (CounterWatcher.max_tries self) logger)
            message_id)
         message_id).1.
Proof.
  assert (Hone : Counter.__getitem__
    (CounterWatcher.memory
       (CounterWatcher.add (CounterWatcher.remove self message_id) message_id))
    message_id = 1).
  { rewrite getitem_add. unfold Counter.__getitem__.
    by rewrite memory_remove_lookup. }
  split; [exact Hone |].
  rewrite !result_is_max_add. unfold Counter.__getitem__.
  rewrite memory_remove_lookup. reflexivity.
Qed.

(** X3.  From any state of the watcher, after [N] more calls of [add] for an id
    its count is the former count plus [N], and [is_max] for that id is true
    exactly when that sum exceeds [max_tries]. *)
Theorem is_max_after_more_adds (self : CounterWatcher.t) (message_id : string)
    (N : nat) :
  Counter.__getitem__
    (CounterWatcher.memory (add_times N message_id self)) message_id
  = Counter.__getitem__ (CounterWatcher.memory self) message_id + Z.of_nat N
  ∧ ((CounterWatcher.is_max (add_times N message_id self) message_id).1 = true
     ↔ Counter.__getitem__ (CounterWatcher.memory self) message_id + Z.of_nat N
       > CounterWatcher.max_tries self).
Proof.
  split; [apply getitem_add_times_from |].
  rewrite result_is_max, getitem_add_times_from, max_tries_add_times.
  apply bool_decide_eq_true.
Qed.

(** X4.  Calls about other message ids do not touch the entry of an id: when
    every stored count is positive, any sequence of [add], [is_max] and
    [remove] calls for ids other than [k] leaves the entry of [k] as it
    was. *)
Theorem other_ids_do_not_interfere (ops : list watcher_op) (k : string) :
  ∀ self : CounterWatcher.t,
    positive_counts self →
    Forall (λ o, op_message_id o ≠ k) ops →
    CounterWatcher.memory (run_ops self ops) !! k
    = CounterWatcher.memory self !! k.
Proof.
  unfold run_ops. induction ops as [|o ops IH]; intros self Hpos Hall.
  - reflexivity.
  - apply Forall_cons in Hall as [Ho Hall]. simpl.
    rewrite IH; [| by apply positive_run_op | done].
    by apply run_op_lookup_ne.
Qed.

(** [other_ids_do_not_interfere] at two attempts for ["a"], then calls for
    ["b"] and ["c"]. *)
Lemma other_ids_do_not_interfere_witness :
  positive_counts (add_times 2 "a" (CounterWatcher.__init__ 3 None))
  ∧ Forall (λ o, op_message_id o ≠ "a")
      [op_add "b"; op_is_max "b"; op_remove "b"; op_add "c"]
  ∧ CounterWatcher.memory
      (run_ops (add_times 2 "a" (CounterWatcher.__init__ 3 None))
         [op_add "b"; op_is_max "b"; op_remove "b"; op_add "c"]) !! "a"
    = CounterWatcher.memory
        (add_times 2 "a" (CounterWatcher.__init__ 3 None)) !! "a".
Proof.
  assert (Hpos : positive_counts
    (add_times 2 "a" (CounterWatcher.__init__ 3 None))).
  { apply positive_add, positive_add, positive_init. }
  assert (Hall : Forall (λ o, op_message_id o ≠ "a")
    [op_add "b"; op_is_max "b"; op_remove "b"; op_add "c"]).
  { repeat constructor; discriminate. }
  split; [exact Hpos | split; [exact Hall |]].
  exact (other_ids_do_not_interfere
           [op_add "b"; op_is_max "b"; op_remove "b"; op_add "c"] "a"
           (add_times 2 "a" (CounterWatcher.__init__ 3 None)) Hpos Hall).
Defined.

(** X5.  The answer of [is_max] does not depend on the logger.  Without a logger
    the watcher is returned as it was; with one, exactly one record is
    appended to what the logger has received and nothing else changes. *)
Theorem is_max_logging (self : CounterWatcher.t) (message_id : string)
    (other : option Logger) (log : Logger) :
  (CounterWatcher.is_max (CounterWatcher.with_logger self other) message_id).1
  = (CounterWatcher.is_max self message_id).1
  ∧ (CounterWatcher.is_max
       (CounterWatcher.with_logger self None) message_id).2
    = CounterWatcher.with_logger self None
  ∧ (∃ record : string,
       CounterWatcher.logger
         (CounterWatcher.is_max
            (CounterWatcher.with_logger self (Some log)) message_id).2
       = Some (log ++ [record])).
Proof.
  split; [reflexivity | split; [reflexivity |]].
  unfold CounterWatcher.is_max. cbn [CounterWatcher.logger
    CounterWatcher.with_logger CounterWatcher.memory CounterWatcher.max_tries snd].
  case_bool_decide; eexists; reflexivity.
Qed.


(** * Properties of the context *)
Section context_facts.

Context {Any W : Type} `{!BaseWatcher W}.
Implicit Types (self : WatcherContext.t Any) (w : world Any W).

Lemma count_calls_app (p : call Any → bool) (l l' : list (call Any)) :
  count_calls p (l ++ l') = (count_calls p l + count_calls p l')%nat.
Proof. unfold count_calls. by rewrite filter_app, length_app. Qed.

Lemma world_after_nil w : world_after w (the_watcher w) [] = w.
Proof. destruct w. unfold world_after. simpl. by rewrite app_nil_r. Qed.

(** The handler returned. *)
Lemma aexit_returned self w :
  let id := message_id (WatcherContext.message self) in
  let ack := message_ack (WatcherContext.message self)
               (WatcherContext.extra_ack_args self) in
  WatcherContext.__aexit__ self None w
  = match broker w (calls w) ack with
    | None =>
        (returned false,
         world_after w (remove (the_watcher w) id) [ack; watcher_remove id])
    | Some error => (raised error, world_after w (the_watcher w) [ack])
    end.
Proof.
  intros id ack. run_context. fold id ack. unfold world_after.
  destruct (broker w (calls w) ack); [done |].
  cbn [the_watcher calls broker]. by rewrite <- app_assoc.
Qed.

Lemma aexit_SkipMessage self w :
  let id := message_id (WatcherContext.message self) in
  WatcherContext.__aexit__ self (Some SkipMessage) w
  = (returned false,
     world_after w (remove (the_watcher w) id) [watcher_remove id]).
Proof. by run_context. Qed.

Lemma aexit_bare_HandlerException self w :
  WatcherContext.__aexit__ self (Some HandlerException) w = (returned true, w).
Proof. by run_context. Qed.

Lemma aexit_AckMessage self w :
  let id := message_id (WatcherContext.message self) in
  let ack := message_ack (WatcherContext.message self)
               (WatcherContext.extra_ack_args self) in
  WatcherContext.__aexit__ self (Some AckMessage) w
  = match broker w (calls w) ack with
    | None =>
        (returned true,
         world_after w (remove (the_watcher w) id) [ack; watcher_remove id])
    | Some error => (raised error, world_after w (the_watcher w) [ack])
    end.
Proof.
  intros id ack. run_context. fold id ack. unfold world_after.
  destruct (broker w (calls w) ack); [done |].
  cbn [the_watcher calls broker]. by rewrite <- app_assoc.
Qed.

Lemma aexit_RejectMessage self w :
  let id := message_id (WatcherContext.message self) in
  let reject := message_reject (WatcherContext.message self)
                  (WatcherContext.extra_ack_args self) in
  WatcherContext.__aexit__ self (Some RejectMessage) w
  = match broker w (calls w) reject with
    | None =>
        (returned true,
         world_after w (remove (the_watcher w) id) [reject; watcher_remove id])
    | Some error => (raised error, world_after w (the_watcher w) [reject])
    end.
Proof.
  intros id reject. run_context. fold id reject. unfold world_after.
  destruct (broker w (calls w) reject); [done |].
  cbn [the_watcher calls broker]. by rewrite <- app_assoc.
Qed.

(** The retry decision shared by [NackMessage] and by the exceptions that
    are no signal: [is_max], then [reject] and [remove], or [nack]. *)
Lemma aexit_NackMessage self w :
  let id := message_id (WatcherContext.message self) in
  let reject := message_reject (WatcherContext.message self)
                  (WatcherContext.extra_ack_args self) in
  let nack := message_nack (WatcherContext.message self)
                (WatcherContext.extra_ack_args self) in
  let s := (is_max (the_watcher w) id).2 in
  WatcherContext.__aexit__ self (Some NackMessage) w
  = if (is_max (the_watcher w) id).1 then
      match broker w (calls w ++ [watcher_is_max id]) reject with
      | None =>
          (returned true,
           world_after w (remove s id)
             [watcher_is_max id; reject; watcher_remove id])
      | Some error =>
          (raised error, world_after w s [watcher_is_max id; reject])
      end
    else
      match broker w (calls w ++ [watcher_is_max id]) nack with
      | None => (returned true, world_after w s [watcher_is_max id; nack])
      | Some error => (raised error, world_after w s [watcher_is_max id; nack])
      end.
Proof.
  intros id reject nack s. run_context. fold id reject nack.
  unfold world_after. subst s.
  destruct (is_max (the_watcher w) id) as [[] s];
    cbn [fst snd the_watcher calls broker].
  - destruct (broker w (calls w ++ [watcher_is_max id]) reject);
      cbn [the_watcher calls broker]; by rewrite <- ?app_assoc.
  - destruct (broker w (calls w ++ [watcher_is_max id]) nack);
      cbn [the_watcher calls broker]; by rewrite <- ?app_assoc.
Qed.

Lemma aexit_not_a_signal self w (exc_val : exception) :
  isinstance exc_val SkipMessage = false →
  isinstance exc_val HandlerException = false →
  let id := message_id (WatcherContext.message self) in
  let reject := message_reject (WatcherContext.message self)
                  (WatcherContext.extra_ack_args self) in
  let nack := message_nack (WatcherContext.message self)
                (WatcherContext.extra_ack_args self) in
  let s := (is_max (the_watcher w) id).2 in
  WatcherContext.__aexit__ self (Some exc_val) w
  = if (is_max (the_watcher w) id).1 then
      match broker w (calls w ++ [watcher_is_max id]) reject with
      | None =>
          (returned false,
           world_after w (remove s id)
             [watcher_is_max id; reject; watcher_remove id])
      | Some error =>
          (raised error, world_after w s [watcher_is_max id; reject])
      end
    else
      match broker w (calls w ++ [watcher_is_max id]) nack with
      | None => (returned false, world_after w s [watcher_is_max id; nack])
      | Some error => (raised error, world_after w s [watcher_is_max id; nack])
      end.
Proof.
  intros Hskip Hhandler id reject nack s.
  unfold WatcherContext.__aexit__. rewrite Hskip, Hhandler.
  run_context. fold id reject nack. unfold world_after. subst s.
  destruct (is_max (the_watcher w) id) as [[] s];
    cbn [fst snd the_watcher calls broker].
  - destruct (broker w (calls w ++ [watcher_is_max id]) reject);
      cbn [the_watcher calls broker]; by rewrite <- ?app_assoc.
  - destruct (broker w (calls w ++ [watcher_is_max id]) nack);
      cbn [the_watcher calls broker]; by rewrite <- ?app_assoc.
Qed.

Lemma aenter_result self w :
  WatcherContext.__aenter__ self w
  = (returned tt,
     world_after w
       (add (the_watcher w) (message_id (WatcherContext.message self)))
       [watcher_add (message_id (WatcherContext.message self))]).
Proof. by run_context. Qed.

(** A whole scope in terms of the exit, run in the world the entry leaves. *)
Lemma scope_raised self w (exc_val : exception) :
  let entered :=
    world_after w
      (add (the_watcher w) (message_id (WatcherContext.message self)))
      [watcher_add (message_id (WatcherContext.message self))] in
  WatcherContext.async_with self (raise exc_val) w
  = match WatcherContext.__aexit__ self (Some exc_val) entered with
    | (returned true, w') => (returned tt, w')
    | (returned false, w') => (raised exc_val, w')
    | (raised error, w') => (raised error, w')
    end.
Proof.
  intros entered. unfold WatcherContext.async_with.
  unfold mbind at 1. unfold M_bind at 1. rewrite aenter_result. fold entered.
  unfold try_except, raise, mbind, M_bind, mret, M_ret.
  by destruct (WatcherContext.__aexit__ self (Some exc_val) entered)
    as [[[]|error] w'].
Qed.

Lemma scope_returned self w :
  let entered :=
    world_after w
      (add (the_watcher w) (message_id (WatcherContext.message self)))
      [watcher_add (message_id (WatcherContext.message self))] in
  WatcherContext.async_with self (mret tt) w
  = match WatcherContext.__aexit__ self None entered with
    | (returned _, w') => (returned tt, w')
    | (raised error, w') => (raised error, w')
    end.
Proof.
  intros entered. unfold WatcherContext.async_with.
  unfold mbind at 1. unfold M_bind at 1. rewrite aenter_result. fold entered.
  unfold try_except, mbind, M_bind, mret, M_ret.
  by destruct (WatcherContext.__aexit__ self None entered) as [[b|error] w'].
Qed.

End context_facts.

(** A scope around a handler that raises an exception which is no signal,
    with any watcher: the calls made, and what leaves the scope. *)
Section failed_scope.

Context {Any W : Type} `{!BaseWatcher W}.
Implicit Types (self : WatcherContext.t Any) (w : world Any W).

Lemma world_after_after w (s1 s2 : W) (l1 l2 : list (call Any)) :
  world_after (world_after w s1 l1) s2 l2 = world_after w s2 (l1 ++ l2).
Proof. unfold world_after. cbn [the_watcher calls broker]. by rewrite app_assoc. Qed.

Lemma failed_scope self w (exc_val : exception) :
  isinstance exc_val SkipMessage = false →
  isinstance exc_val HandlerException = false →
  let id := message_id (WatcherContext.message self) in
  let reject := message_reject (WatcherContext.message self)
                  (WatcherContext.extra_ack_args self) in
  let nack := message_nack (WatcherContext.message self)
                (WatcherContext.extra_ack_args self) in
  let s := (is_max (add (the_watcher w) id) id).2 in
  WatcherContext.async_with self (raise exc_val) w
  = if (is_max (add (the_watcher w) id) id).1 then
      match broker w (calls w ++ [watcher_add id; watcher_is_max id]) reject with
      | None =>
          (raised exc_val,
           world_after w (remove s id)
             [watcher_add id; watcher_is_max id; reject; watcher_remove id])
      | Some error =>
          (raised error,
           world_after w s [watcher_add id; watcher_is_max id; reject])
      end
    else
      match broker w (calls w ++ [watcher_add id; watcher_is_max id]) nack with
      | None =>
          (raised exc_val,
           world_after w s [watcher_add id; watcher_is_max id; nack])
      | Some error =>
          (raised error,
           world_after w s [watcher_add id; watcher_is_max id; nack])
      end.
Proof.
  intros Hskip Hhandler id reject nack s.
  rewrite scope_raised, aexit_not_a_signal by done.
  fold id reject nack. cbn [world_after the_watcher calls broker].
  rewrite <- app_assoc. cbn [app]. fold s.
  destruct (is_max (add (the_watcher w) id) id).1.
  - destruct (broker w _ reject); by rewrite world_after_after.
  - destruct (broker w _ nack); by rewrite world_after_after.
Qed.

End failed_scope.

(** * The context: claims *)

(** C2, as stated, fails: [HandlerException()] is an exception and is none of
    the four outcome signals, yet when the handler raises it the exit calls
    neither [reject] nor [nack] (it calls nothing) and returns true, which
    suppresses the exception. *)
Lemma bare_HandlerException_is_swallowed :
  (HandlerException ∉ [SkipMessage; AckMessage; NackMessage; RejectMessage])
  ∧ WatcherContext.__aexit__ example_context (Some HandlerException) example_world
    = (returned true, example_world).
Proof.
  split.
  - rewrite !elem_of_cons, elem_of_nil. intros [?|[?|[?|[?|[]]]]]; discriminate.
  - reflexivity.
Qed.

(** C2, amended.  When the handler raised an exception that is neither a
    [SkipMessage] nor an instance of [HandlerException], the exit asks
    [is_max]; it then calls [reject] if the answer is true and [nack]
    otherwise.  When that call returns, the exit goes on ([remove] after
    [reject]) and returns false, and the exception leaves the scope; when it
    raises, its error leaves the exit instead. *)
Theorem aexit_other_exception {Any W : Type} `{!BaseWatcher W}
    (self : WatcherContext.t Any) (w : world Any W) (exc_val : exception) :
  isinstance exc_val SkipMessage = false →
  isinstance exc_val HandlerException = false →
  let id := message_id (WatcherContext.message self) in
  let reject := message_reject (WatcherContext.message self)
                  (WatcherContext.extra_ack_args self) in
  let nack := message_nack (WatcherContext.message self)
                (WatcherContext.extra_ack_args self) in
  WatcherContext.__aexit__ self (Some exc_val) w
  = (if (is_max (the_watcher w) id).1 then
       match broker w (calls w ++ [watcher_is_max id]) reject with
       | None =>
           (returned false,
            world_after w (remove (is_max (the_watcher w) id).2 id)
              [watcher_is_max id; reject; watcher_remove id])
       | Some error =>
           (raised error,
            world_after w (is_max (the_watcher w) id).2
              [watcher_is_max id; reject])
       end
     else
       match broker w (calls w ++ [watcher_is_max id]) nack with
       | None =>
           (returned false,
            world_after w (is_max (the_watcher w) id).2
              [watcher_is_max id; nack])
       | Some error =>
           (raised error,
            world_after w (is_max (the_watcher w) id).2
              [watcher_is_max id; nack])
       end)
  ∧ (WatcherContext.async_with self (raise exc_val) w).1
    = raised
        (match
           broker w (calls w ++ [watcher_add id; watcher_is_max id])
             (if (is_max (add (the_watcher w) id) id).1 then reject else nack)
         with
         | None => exc_val
         | Some error => error
         end).
Proof.
  intros Hskip Hhandler id reject nack. split.
  - by apply aexit_not_a_signal.
  - rewrite failed_scope by done. fold id reject nack.
    destruct (is_max (add (the_watcher w) id) id).1;
      by destruct (broker w _ _).
Qed.

(** The amended C2 at a [RuntimeError] raised inside [example_context]. *)
Lemma aexit_other_exception_witness :
  isinstance (Builtin "RuntimeError") SkipMessage = false
  ∧ isinstance (Builtin "RuntimeError") HandlerException = false
  ∧ (WatcherContext.async_with example_context
       (raise (Builtin "RuntimeError")) example_world).1
    = raised (Builtin "RuntimeError").
Proof.
  split; [reflexivity | split; [reflexivity |]].
  exact (proj2 (aexit_other_exception example_context example_world
                  (Builtin "RuntimeError") eq_refl eq_refl)).
Defined.

(** C3, as stated, fails: on [SkipMessage] the exit returns false, so the
    signal is not suppressed and leaves the scope. *)
Lemma SkipMessage_leaves_the_scope :
  (WatcherContext.__aexit__ example_context (Some SkipMessage) example_world).1
  = returned false
  ∧ (WatcherContext.async_with example_context (raise SkipMessage)
       example_world).1
    = raised SkipMessage.
Proof. split; reflexivity. Qed.

(** C3, amended.  When the handler raised [SkipMessage], the exit calls
    neither [ack] nor [nack] nor [reject]; [remove] for the message id is the
    one call it makes; it returns false, so the signal is not suppressed by
    the context and leaves the scope. *)
Theorem aexit_skip_signal {Any W : Type} `{!BaseWatcher W}
    (self : WatcherContext.t Any) (w : world Any W) :
  WatcherContext.__aexit__ self (Some SkipMessage) w
  = (returned false,
     world_after w
       (remove (the_watcher w) (message_id (WatcherContext.message self)))
       [watcher_remove (message_id (WatcherContext.message self))])
  ∧ count_calls is_terminal
      (calls (WatcherContext.__aexit__ self (Some SkipMessage) w).2)
    = count_calls is_terminal (calls w)
  ∧ count_calls is_watcher_call
      (calls (WatcherContext.__aexit__ self (Some SkipMessage) w).2)
    = (count_calls is_watcher_call (calls w) + 1)%nat
  ∧ (WatcherContext.async_with self (raise SkipMessage) w).1
    = raised SkipMessage.
Proof.
  split; [apply aexit_SkipMessage | split; [|split]].
  - rewrite aexit_SkipMessage. cbn [snd calls world_after].
    rewrite count_calls_app. count_new_calls. lia.
  - rewrite aexit_SkipMessage. cbn [snd calls world_after].
    rewrite count_calls_app. by count_new_calls.
  - rewrite scope_raised. by rewrite aexit_SkipMessage.
Qed.

(** C5, as stated, fails: the exit on [SkipMessage] performs no terminal
    action at all. *)
Lemma SkipMessage_has_no_terminal_action :
  count_calls is_terminal
    (calls (WatcherContext.__aexit__ example_context (Some SkipMessage)
              example_world).2)
  = 0%nat
  ∧ count_calls is_terminal
      (calls (WatcherContext.__aexit__ example_context (Some SkipMessage)
                example_world).2)
    ≠ 1%nat.
Proof. split; [reflexivity | discriminate]. Qed.

(** C5, amended.  The exit performs exactly one terminal action ([ack],
    [nack] or [reject]) when the handler returned, when it raised
    [AckMessage], [NackMessage] or [RejectMessage], and when it raised an
    exception that is neither a [SkipMessage] nor an instance of
    [HandlerException]; on [SkipMessage] it performs none.  This holds
    whether the call on the message returns or raises. *)
Theorem one_terminal_action_per_exit {Any W : Type} `{!BaseWatcher W}
    (self : WatcherContext.t Any) (w : world Any W) (exc : option exception) :
  exc = None ∨ exc = Some AckMessage ∨ exc = Some NackMessage
  ∨ exc = Some RejectMessage
  ∨ (∃ exc_val, exc = Some exc_val
                ∧ isinstance exc_val SkipMessage = false
                ∧ isinstance exc_val HandlerException = false) →
  count_calls is_terminal (calls (WatcherContext.__aexit__ self exc w).2)
  = (count_calls is_terminal (calls w) + 1)%nat
  ∧ count_calls is_terminal
      (calls (WatcherContext.__aexit__ self (Some SkipMessage) w).2)
    = count_calls is_terminal (calls w).
Proof.
  intros Hexc. split.
  - destruct Hexc as [->|[->|[->|[->|(exc_val & -> & Hskip & Hhandler)]]]].
    + rewrite aexit_returned. destruct (broker w _ _);
        cbn [snd calls world_after]; by rewrite count_calls_app.
    + rewrite aexit_AckMessage. destruct (broker w _ _);
        cbn [snd calls world_after]; by rewrite count_calls_app.
    + rewrite aexit_NackMessage.
      destruct (is_max _ _).1; destruct (broker w _ _);
        cbn [snd calls world_after]; by rewrite count_calls_app.
    + rewrite aexit_RejectMessage. destruct (broker w _ _);
        cbn [snd calls world_after]; by rewrite count_calls_app.
    + rewrite aexit_not_a_signal by done.
      destruct (is_max _ _).1; destruct (broker w _ _);
        cbn [snd calls world_after]; by rewrite count_calls_app.
  - rewrite aexit_SkipMessage. cbn [snd calls world_after].
    rewrite count_calls_app. count_new_calls. lia.
Qed.

(** The amended C5 at a [NackMessage] raised inside [example_context]. *)
Lemma one_terminal_action_per_exit_witness :
  count_calls is_terminal
    (calls (WatcherContext.__aexit__ example_context (Some NackMessage)
              example_world).2)
  = (count_calls is_terminal (calls example_world) + 1)%nat.
Proof.
  exact (proj1 (one_terminal_action_per_exit example_context example_world
                  (Some NackMessage)
                  (or_intror (or_intror (or_introl eq_refl))))).
Defined.

(** C7, as stated, fails: when the handler returned and the message's [ack]
    raises (here the broker of [disconnected_world] has lost its
    connection), the watcher's [remove] is not called: the only call of the
    exit is [ack], and its error leaves the exit. *)
Lemma raising_ack_skips_remove :
  WatcherContext.__aexit__ example_context None disconnected_world
  = (raised (Builtin "ConnectionError"),
     world_after disconnected_world (the_watcher disconnected_world)
       [message_ack example_message ∅])
  ∧ count_calls is_remove_call
      (calls (WatcherContext.__aexit__ example_context None
                disconnected_world).2)
    = 0%nat.
Proof. split; reflexivity. Qed.

(** C7, amended.  When the handler returned normally the exit calls the
    message's [ack] exactly once, with [extra_ack_args], and calls neither
    [nack] nor [reject].  When [ack] returns, the exit then calls [remove]
    for the message id on the watcher and returns false; when [ack] raises,
    [remove] is not called and the error leaves the exit. *)
Theorem normal_return_acks_once {Any W : Type} `{!BaseWatcher W}
    (self : WatcherContext.t Any) (w : world Any W) :
  let id := message_id (WatcherContext.message self) in
  let ack := message_ack (WatcherContext.message self)
               (WatcherContext.extra_ack_args self) in
  WatcherContext.__aexit__ self None w
  = match broker w (calls w) ack with
    | None =>
        (returned false,
         world_after w (remove (the_watcher w) id) [ack; watcher_remove id])
    | Some error => (raised error, world_after w (the_watcher w) [ack])
    end
  ∧ count_calls is_ack (calls (WatcherContext.__aexit__ self None w).2)
    = (count_calls is_ack (calls w) + 1)%nat
  ∧ count_calls is_nack (calls (WatcherContext.__aexit__ self None w).2)
    = count_calls is_nack (calls w)
  ∧ count_calls is_reject (calls (WatcherContext.__aexit__ self None w).2)
    = count_calls is_reject (calls w).
Proof.
  intros id ack. split; [apply aexit_returned |].
  rewrite aexit_returned. fold id ack.
  destruct (broker w (calls w) ack); cbn [snd calls world_after];
    rewrite !count_calls_app; count_new_calls; lia.
Qed.

(** C8.  When the handler raised [NackMessage], the exit asks [is_max]; it
    calls [reject] (and then [remove]) if the answer is true and [nack]
    otherwise, and returns true either way, so the signal does not leave the
    scope: what leaves it is nothing when the call on the message returns,
    and the error of that call when it raises.  On the NACK path [remove] is
    not called, and with a counter watcher the attempt counts are what they
    were before the exit. *)
Theorem nack_signal_rejects_or_nacks {Any W : Type} `{!BaseWatcher W}
    (self : WatcherContext.t Any) (w : world Any W) :
  let id := message_id (WatcherContext.message self) in
  let reject := message_reject (WatcherContext.message self)
                  (WatcherContext.extra_ack_args self) in
  let nack := message_nack (WatcherContext.message self)
                (WatcherContext.extra_ack_args self) in
  WatcherContext.__aexit__ self (Some NackMessage) w
  = (if (is_max (the_watcher w) id).1 then
       match broker w (calls w ++ [watcher_is_max id]) reject with
       | None =>
           (returned true,
            world_after w (remove (is_max (the_watcher w) id).2 id)
              [watcher_is_max id; reject; watcher_remove id])
       | Some error =>
           (raised error,
            world_after w (is_max (the_watcher w) id).2
              [watcher_is_max id; reject])
       end
     else
       match broker w (calls w ++ [watcher_is_max id]) nack with
       | None =>
           (returned true,
            world_after w (is_max (the_watcher w) id).2
              [watcher_is_max id; nack])
       | Some error =>
           (raised error,
            world_after w (is_max (the_watcher w) id).2
              [watcher_is_max id; nack])
       end)
  ∧ (WatcherContext.async_with self (raise NackMessage) w).1
    = match
        broker w (calls w ++ [watcher_add id; watcher_is_max id])
          (if (is_max (add (the_watcher w) id) id).1 then reject else nack)
      with
      | None => returned tt
      | Some error => raised error
      end
  ∧ (∀ cw : world Any CounterWatcher.t,
       (is_max (the_watcher cw) id).1 = false →
       CounterWatcher.memory
         (the_watcher
            (WatcherContext.__aexit__ self (Some NackMessage) cw).2)
       = CounterWatcher.memory (the_watcher cw)).
Proof.
  intros id reject nack. split; [apply aexit_NackMessage | split].
  - rewrite scope_raised, aexit_NackMessage. fold id reject nack.
    cbn [world_after the_watcher calls broker].
    rewrite <- app_assoc. cbn [app].
    destruct (is_max (add (the_watcher w) id) id).1;
      by destruct (broker w _ _).
  - intros cw Hretry. rewrite aexit_NackMessage. fold id. rewrite Hretry.
    destruct (broker cw _ _); cbn [snd world_after the_watcher];
      apply memory_is_max.
Qed.

(** C8 at [example_context], once entered: one attempt against
    [max_tries = 2], so the exit takes the NACK path. *)
Lemma nack_signal_rejects_or_nacks_witness :
  (is_max (the_watcher (WatcherContext.__aenter__ example_context example_world).2)
     (message_id (WatcherContext.message example_context))).1
  = false
  ∧ CounterWatcher.memory
      (the_watcher
         (WatcherContext.__aexit__ example_context (Some NackMessage)
            (WatcherContext.__aenter__ example_context example_world).2).2)
    = CounterWatcher.memory
        (the_watcher
           (WatcherContext.__aenter__ example_context example_world).2).
Proof.
  split; [reflexivity |].
  exact (proj2 (proj2 (nack_signal_rejects_or_nacks (W := CounterWatcher.t)
                         example_context example_world))
           (WatcherContext.__aenter__ example_context example_world).2
           eq_refl).
Defined.

(** One scope around a handler that raises a plain exception, with a counter
    watcher: the two ways it can end. *)
Section counter_failed_scope.

Context {Any : Type}.
Implicit Types (self : WatcherContext.t Any) (w : world Any CounterWatcher.t).

Lemma counter_failed_scope_retry self w (name : string) :
  let id := message_id (WatcherContext.message self) in
  let nack := message_nack (WatcherContext.message self)
                (WatcherContext.extra_ack_args self) in
  let scope := WatcherContext.async_with self (raise (Builtin name)) w in
  Counter.__getitem__ (CounterWatcher.memory (the_watcher w)) id + 1
  ≤ CounterWatcher.max_tries (the_watcher w) →
  scope.1
  = raised
      (match broker w (calls w ++ [watcher_add id; watcher_is_max id]) nack with
       | None => Builtin name
       | Some error => error
       end)
  ∧ calls scope.2 = calls w ++ nack_round self
  ∧ broker scope.2 = broker w
  ∧ Counter.__getitem__ (CounterWatcher.memory (the_watcher scope.2)) id
    = Counter.__getitem__ (CounterWatcher.memory (the_watcher w)) id + 1
  ∧ CounterWatcher.max_tries (the_watcher scope.2)
    = CounterWatcher.max_tries (the_watcher w).
Proof.
  intros id nack scope Hle. subst scope. rewrite failed_scope by done.
  fold id nack. cbn [is_max add CounterWatcher_BaseWatcher].
  rewrite result_is_max_add, bool_decide_eq_false_2 by lia.
  assert (Hcount : Counter.__getitem__
    (CounterWatcher.memory
       (CounterWatcher.is_max (CounterWatcher.add (the_watcher w) id) id).2) id
    = Counter.__getitem__ (CounterWatcher.memory (the_watcher w)) id + 1).
  { by rewrite memory_is_max, getitem_add. }
  assert (Hmax : CounterWatcher.max_tries
    (CounterWatcher.is_max (CounterWatcher.add (the_watcher w) id) id).2
    = CounterWatcher.max_tries (the_watcher w)).
  { by rewrite max_tries_is_max. }
  destruct (broker w _ nack); cbn [fst snd world_after the_watcher calls broker];
    by repeat split.
Qed.

Lemma counter_failed_scope_exhausted self w (name : string) :
  let id := message_id (WatcherContext.message self) in
  let reject := message_reject (WatcherContext.message self)
                  (WatcherContext.extra_ack_args self) in
  let s := (CounterWatcher.is_max
              (CounterWatcher.add (the_watcher w) id) id).2 in
  Counter.__getitem__ (CounterWatcher.memory (the_watcher w)) id + 1
  > CounterWatcher.max_tries (the_watcher w) →
  WatcherContext.async_with self (raise (Builtin name)) w
  = match broker w (calls w ++ [watcher_add id; watcher_is_max id]) reject with
    | None =>
        (raised (Builtin name),
         world_after w (CounterWatcher.remove s id) (reject_round self))
    | Some error =>
        (raised error,
         world_after w s [watcher_add id; watcher_is_max id; reject])
    end.
Proof.
  intros id reject s Hgt. rewrite failed_scope by done.
  fold id reject. cbn [is_max add remove CounterWatcher_BaseWatcher].
  by rewrite result_is_max_add, bool_decide_eq_true_2 by lia.
Qed.

End counter_failed_scope.



(** * More on the context *)
Section context_more.

Context {Any W : Type} `{!BaseWatcher W}.
Implicit Types (self : WatcherContext.t Any) (w : world Any W).

Lemma concat_replicate_end {A} (n : nat) (r : list A) :
  concat (replicate (S n) r) = concat (replicate n r) ++ r.
Proof.
  rewrite replicate_S_end, concat_app. simpl. by rewrite app_nil_r.
Qed.

Lemma after_scopes_S n self (handler : M Any W unit) w :
  after_scopes (S n) self handler w
  = (WatcherContext.async_with self handler (after_scopes n self handler w)).2.
Proof. reflexivity. Qed.

Lemma scope_AckMessage self w :
  let id := message_id (WatcherContext.message self) in
  let ack := message_ack (WatcherContext.message self)
               (WatcherContext.extra_ack_args self) in
  WatcherContext.async_with self (raise AckMessage) w
  = match broker w (calls w ++ [watcher_add id]) ack with
    | None =>
        (returned tt,
         world_after w (remove (add (the_watcher w) id) id)
           [watcher_add id; ack; watcher_remove id])
    | Some error =>
        (raised error,
         world_after w (add (the_watcher w) id) [watcher_add id; ack])
    end.
Proof.
  intros id ack. rewrite scope_raised, aexit_AckMessage. fold id ack.
  cbn [world_after the_watcher calls broker].
  destruct (broker w _ ack); by rewrite world_after_after.
Qed.

Lemma scope_RejectMessage self w :
  let id := message_id (WatcherContext.message self) in
  let reject := message_reject (WatcherContext.message self)
                  (WatcherContext.extra_ack_args self) in
  WatcherContext.async_with self (raise RejectMessage) w
  = match broker w (calls w ++ [watcher_add id]) reject with
    | None =>
        (returned tt,
         world_after w (remove (add (the_watcher w) id) id)
           [watcher_add id; reject; watcher_remove id])
    | Some error =>
        (raised error,
         world_after w (add (the_watcher w) id) [watcher_add id; reject])
    end.
Proof.
  intros id reject. rewrite scope_raised, aexit_RejectMessage. fold id reject.
  cbn [world_after the_watcher calls broker].
  destruct (broker w _ reject); by rewrite world_after_after.
Qed.

Lemma scope_no_exception self w :
  let id := message_id (WatcherContext.message self) in
  let ack := message_ack (WatcherContext.message self)
               (WatcherContext.extra_ack_args self) in
  WatcherContext.async_with self (mret tt) w
  = match broker w (calls w ++ [watcher_add id]) ack with
    | None =>
        (returned tt,
         world_after w (remove (add (the_watcher w) id) id)
           [watcher_add id; ack; watcher_remove id])
    | Some error =>
        (raised error,
         world_after w (add (the_watcher w) id) [watcher_add id; ack])
    end.
Proof.
  intros id ack. rewrite scope_returned, aexit_returned. fold id ack.
  cbn [world_after the_watcher calls broker].
  destruct (broker w _ ack); by rewrite world_after_after.
Qed.

Lemma scope_SkipMessage self w :
  let id := message_id (WatcherContext.message self) in
  WatcherContext.async_with self (raise SkipMessage) w
  = (raised SkipMessage,
     world_after w (remove (add (the_watcher w) id) id)
       [watcher_add id; watcher_remove id]).
Proof.
  intros id. rewrite scope_raised, aexit_SkipMessage. fold id.
  by rewrite world_after_after.
Qed.

Lemma scope_bare_HandlerException self w :
  let id := message_id (WatcherContext.message self) in
  WatcherContext.async_with self (raise HandlerException) w
  = (returned tt, world_after w (add (the_watcher w) id) [watcher_add id]).
Proof. intros id. rewrite scope_raised. by rewrite aexit_bare_HandlerException. Qed.

Lemma scope_NackMessage self w :
  let id := message_id (WatcherContext.message self) in
  let reject := message_reject (WatcherContext.message self)
                  (WatcherContext.extra_ack_args self) in
  let nack := message_nack (WatcherContext.message self)
                (WatcherContext.extra_ack_args self) in
  let s := (is_max (add (the_watcher w) id) id).2 in
  WatcherContext.async_with self (raise NackMessage) w
  = if (is_max (add (the_watcher w) id) id).1 then
      match broker w (calls w ++ [watcher_add id; watcher_is_max id]) reject with
      | None =>
          (returned tt,
           world_after w (remove s id)
             [watcher_add id; watcher_is_max id; reject; watcher_remove id])
      | Some error =>
          (raised error,
           world_after w s [watcher_add id; watcher_is_max id; reject])
      end
    else
      match broker w (calls w ++ [watcher_add id; watcher_is_max id]) nack with
      | None =>
          (returned tt,
           world_after w s [watcher_add id; watcher_is_max id; nack])
      | Some error =>
          (raised error,
           world_after w s [watcher_add id; watcher_is_max id; nack])
      end.
Proof.
  intros id reject nack s. rewrite scope_raised, aexit_NackMessage.
  fold id reject nack. cbn [world_after the_watcher calls broker].
  rewrite <- app_assoc. cbn [app]. fold s.
  destruct (is_max (add (the_watcher w) id) id).1.
  - destruct (broker w _ reject); by rewrite world_after_after.
  - destruct (broker w _ nack); by rewrite world_after_after.
Qed.

(** The exit returns the boolean its branch says, unless a call on the
    message raised. *)
Lemma exit_returns_or_broker_raised self w (exc : option exception) :
  (WatcherContext.__aexit__ self exc w).1
  = returned
      (match exc with
       | None => false
       | Some exc_val =>
           negb (isinstance exc_val SkipMessage)
           && isinstance exc_val HandlerException
       end)
  ∨ (∃ error log c,
       is_terminal c = true ∧ broker w log c = Some error
       ∧ (WatcherContext.__aexit__ self exc w).1 = raised error).
Proof.
  destruct exc as [[| | | | |name]|].
  - left. by rewrite aexit_SkipMessage.
  - left. by rewrite aexit_bare_HandlerException.
  - rewrite aexit_AckMessage.
    destruct (broker w _ _) as [error|] eqn:Hb; [| by left].
    right. eexists error, _, _.
    split; [| split; [exact Hb | reflexivity]]; reflexivity.
  - rewrite aexit_NackMessage.
    destruct (is_max _ _).1;
      (destruct (broker w _ _) as [error|] eqn:Hb; [| by left]);
      right; eexists error, _, _;
      (split; [| split; [exact Hb | reflexivity]]); reflexivity.
  - rewrite aexit_RejectMessage.
    destruct (broker w _ _) as [error|] eqn:Hb; [| by left].
    right. eexists error, _, _.
    split; [| split; [exact Hb | reflexivity]]; reflexivity.
  - rewrite aexit_not_a_signal by done.
    destruct (is_max _ _).1;
      (destruct (broker w _ _) as [error|] eqn:Hb; [| by left]);
      right; eexists error, _, _;
      (split; [| split; [exact Hb | reflexivity]]); reflexivity.
  - rewrite aexit_returned.
    destruct (broker w _ _) as [error|] eqn:Hb; [| by left].
    right. eexists error, _, _.
    split; [| split; [exact Hb | reflexivity]]; reflexivity.
Qed.

End context_more.

(** X6.  When the handler raised [AckMessage], the exit calls the message's
    [ack] once with [extra_ack_args] and calls neither [is_max] nor [nack]
    nor [reject].  When [ack] returns, the exit then calls [remove] on the
    watcher and returns true, and nothing leaves the scope; when [ack]
    raises, [remove] is not called and the error leaves the exit and the
    scope. *)
Theorem ack_signal_acks_once {Any W : Type} `{!BaseWatcher W}
    (self : WatcherContext.t Any) (w : world Any W) :
  let id := message_id (WatcherContext.message self) in
  let ack := message_ack (WatcherContext.message self)
               (WatcherContext.extra_ack_args self) in
  WatcherContext.__aexit__ self (Some AckMessage) w
  = match broker w (calls w) ack with
    | None =>
        (returned true,
         world_after w (remove (the_watcher w) id) [ack; watcher_remove id])
    | Some error => (raised error, world_after w (the_watcher w) [ack])
    end
  ∧ (WatcherContext.async_with self (raise AckMessage) w).1
    = match broker w (calls w ++ [watcher_add id]) ack with
      | None => returned tt
      | Some error => raised error
      end.
Proof.
  intros id ack. split; [apply aexit_AckMessage |].
  rewrite scope_AckMessage. fold id ack. by destruct (broker w _ ack).
Qed.

(** X7.  When the handler raised [RejectMessage], the exit calls the
    message's [reject] once with [extra_ack_args], without asking [is_max].
    When [reject] returns, the exit then calls [remove] on the watcher and
    returns true, and nothing leaves the scope; when [reject] raises,
    [remove] is not called and the error leaves the exit and the scope. *)
Theorem reject_signal_rejects_once {Any W : Type} `{!BaseWatcher W}
    (self : WatcherContext.t Any) (w : world Any W) :
  let id := message_id (WatcherContext.message self) in
  let reject := message_reject (WatcherContext.message self)
                  (WatcherContext.extra_ack_args self) in
  WatcherContext.__aexit__ self (Some RejectMessage) w
  = match broker w (calls w) reject with
    | None =>
        (returned true,
         world_after w (remove (the_watcher w) id) [reject; watcher_remove id])
    | Some error => (raised error, world_after w (the_watcher w) [reject])
    end
  ∧ (WatcherContext.async_with self (raise RejectMessage) w).1
    = match broker w (calls w ++ [watcher_add id]) reject with
      | None => returned tt
      | Some error => raised error
      end.
Proof.
  intros id reject. split; [apply aexit_RejectMessage |].
  rewrite scope_RejectMessage. fold id reject. by destruct (broker w _ reject).
Qed.

(** X8.  When the exit returns, what it returns depends on the class of the
    exception alone, not on the watcher: true exactly for the instances of
    [HandlerException] that are no [SkipMessage], false when there is no
    exception.  The one other way out of the exit is the error of a call on
    the message that raised.  So when the calls on the message return, a
    scope lets out every exception that is a [SkipMessage] or no
    [HandlerException], and only those. *)
Theorem exit_suppresses_handler_exceptions_only {Any W : Type} `{!BaseWatcher W}
    (self : WatcherContext.t Any) (w : world Any W) (exc_val : exception) :
  let suppress :=
    negb (isinstance exc_val SkipMessage)
    && isinstance exc_val HandlerException in
  ((WatcherContext.__aexit__ self (Some exc_val) w).1 = returned suppress
   ∨ (∃ error log c,
        is_terminal c = true ∧ broker w log c = Some error
        ∧ (WatcherContext.__aexit__ self (Some exc_val) w).1 = raised error))
  ∧ ((WatcherContext.__aexit__ self None w).1 = returned false
     ∨ (∃ error log c,
          is_terminal c = true ∧ broker w log c = Some error
          ∧ (WatcherContext.__aexit__ self None w).1 = raised error))
  ∧ (calls_return w →
     (WatcherContext.__aexit__ self (Some exc_val) w).1 = returned suppress
     ∧ (WatcherContext.__aexit__ self None w).1 = returned false
     ∧ (WatcherContext.async_with self (raise exc_val) w).1
       = (if suppress then returned tt else raised exc_val)
     ∧ (WatcherContext.async_with self (mret tt) w).1 = returned tt).
Proof.
  intros suppress.
  assert (Hreturns : ∀ (w' : world Any W) (exc : option exception),
    calls_return w' →
    (WatcherContext.__aexit__ self exc w').1
    = returned
        (match exc with
         | None => false
         | Some exc_val =>
             negb (isinstance exc_val SkipMessage)
             && isinstance exc_val HandlerException
         end)).
  { intros w' exc Hreturn.
    destruct (exit_returns_or_broker_raised self w' exc)
      as [Hexit | (error & log & c & _ & Hraised & _)]; [done |].
    by rewrite Hreturn in Hraised. }
  split; [apply (exit_returns_or_broker_raised self w (Some exc_val)) |].
  split; [apply (exit_returns_or_broker_raised self w None) |].
  intros Hreturn. split; [by apply (Hreturns w (Some exc_val)) |].
  split; [by apply (Hreturns w None) | split].
  - rewrite scope_raised.
    pose proof (Hreturns
      (world_after w
         (add (the_watcher w) (message_id (WatcherContext.message self)))
         [watcher_add (message_id (WatcherContext.message self))])
      (Some exc_val) Hreturn) as Hexit.
    destruct (WatcherContext.__aexit__ self (Some exc_val) _) as [[b|error] w'];
      cbn [fst] in *; [| done].
    injection Hexit as ->. subst suppress.
    by destruct (negb _ && _).
  - rewrite scope_returned.
    pose proof (Hreturns
      (world_after w
         (add (the_watcher w) (message_id (WatcherContext.message self)))
         [watcher_add (message_id (WatcherContext.message self))])
      None Hreturn) as Hexit.
    by destruct (WatcherContext.__aexit__ self None _) as [[b|error] w'].
Qed.

(** X8 at [AckMessage] in [example_world], whose broker answers every
    call. *)
Lemma exit_suppresses_handler_exceptions_only_witness :
  calls_return example_world
  ∧ (WatcherContext.__aexit__ example_context (Some AckMessage)
       example_world).1
    = returned true.
Proof.
  assert (Hreturn : calls_return example_world) by (intros log c; reflexivity).
  split; [exact Hreturn |].
  exact (proj1 (proj2 (proj2
    (exit_suppresses_handler_exceptions_only example_context example_world
       AckMessage)) Hreturn)).
Defined.

(** X9.  Whatever the handler did, whatever the watcher answers and whether
    the calls on the message return or raise, one exit performs at most one
    terminal action, asks [is_max] at most once and calls [remove] at most
    once. *)
Theorem exit_never_acts_twice {Any W : Type} `{!BaseWatcher W}
    (self : WatcherContext.t Any) (w : world Any W) (exc : option exception) :
  (count_calls is_terminal (calls (WatcherContext.__aexit__ self exc w).2)
   ≤ count_calls is_terminal (calls w) + 1)%nat
  ∧ (count_calls is_is_max_call (calls (WatcherContext.__aexit__ self exc w).2)
     ≤ count_calls is_is_max_call (calls w) + 1)%nat
  ∧ (count_calls is_remove_call (calls (WatcherContext.__aexit__ self exc w).2)
     ≤ count_calls is_remove_call (calls w) + 1)%nat.
Proof.
  destruct exc as [[| | | | |name]|].
  - rewrite aexit_SkipMessage. cbn [snd calls world_after].
    rewrite !count_calls_app. count_new_calls. lia.
  - rewrite aexit_bare_HandlerException. cbn [snd]. lia.
  - rewrite aexit_AckMessage. destruct (broker w _ _);
      cbn [snd calls world_after]; rewrite !count_calls_app;
      count_new_calls; lia.
  - rewrite aexit_NackMessage.
    destruct (is_max _ _).1; destruct (broker w _ _);
      cbn [snd calls world_after]; rewrite !count_calls_app;
      count_new_calls; lia.
  - rewrite aexit_RejectMessage. destruct (broker w _ _);
      cbn [snd calls world_after]; rewrite !count_calls_app;
      count_new_calls; lia.
  - rewrite aexit_not_a_signal by done.
    destruct (is_max _ _).1; destruct (broker w _ _);
      cbn [snd calls world_after]; rewrite !count_calls_app;
      count_new_calls; lia.
  - rewrite aexit_returned. destruct (broker w _ _);
      cbn [snd calls world_after]; rewrite !count_calls_app;
      count_new_calls; lia.
Qed.

(** X10.  A whole scope around a handler that returns: the watcher's [add]
    comes first, then the message's [ack], which receives the keyword
    arguments the context was built with, unchanged.  When [ack] returns,
    the watcher's [remove] follows and nothing is raised; when [ack]
    raises, [remove] is not called, the attempt stays recorded and the
    error leaves the scope. *)
Theorem successful_scope_calls {Any W : Type} `{!BaseWatcher W}
    (message : StreamMessage) (kwargs : gmap string Any) (w : world Any W) :
  WatcherContext.async_with (WatcherContext.__init__ message kwargs) (mret tt) w
  = match
      broker w (calls w ++ [watcher_add (message_id message)])
        (message_ack message kwargs)
    with
    | None =>
        (returned tt,
         world_after w
           (remove (add (the_watcher w) (message_id message)) (message_id message))
           [watcher_add (message_id message);
            message_ack message kwargs;
            watcher_remove (message_id message)])
    | Some error =>
        (raised error,
         world_after w (add (the_watcher w) (message_id message))
           [watcher_add (message_id message); message_ack message kwargs])
    end.
Proof.
  assert (Hargs : WatcherContext.extra_ack_args
                    (WatcherContext.__init__ message kwargs) = kwargs).
  { unfold WatcherContext.__init__. simpl. by case_decide. }
  rewrite scope_no_exception, Hargs. reflexivity.
Qed.

(** X16.  A [HandlerException] that is none of [AckMessage], [NackMessage]
    and [RejectMessage] goes through the exit without any call on the
    message or on the watcher, and is suppressed: after the whole scope the
    message has been neither acked, nacked nor rejected, and the attempt
    recorded by [add] on entry stays recorded. *)
Theorem unknown_handler_exception_is_dropped {Any W : Type} `{!BaseWatcher W}
    (self : WatcherContext.t Any) (w : world Any W) :
  WatcherContext.__aexit__ self (Some HandlerException) w = (returned true, w)
  ∧ WatcherContext.async_with self (raise HandlerException) w
    = (returned tt,
       world_after w
         (add (the_watcher w) (message_id (WatcherContext.message self)))
         [watcher_add (message_id (WatcherContext.message self))]).
Proof.
  split; [apply aexit_bare_HandlerException | apply scope_bare_HandlerException].
Qed.

(** * Scopes in a row *)
Section scopes_in_a_row.

Context {Any : Type}.
Implicit Types (self : WatcherContext.t Any) (name : string).

Lemma endless_failed_scope self name (w : world Any EndlessWatcher.t) :
  let id := message_id (WatcherContext.message self) in
  let nack := message_nack (WatcherContext.message self)
                (WatcherContext.extra_ack_args self) in
  WatcherContext.async_with self (raise (Builtin name)) w
  = (raised
       (match broker w (calls w ++ [watcher_add id; watcher_is_max id]) nack with
        | None => Builtin name
        | Some error => error
        end),
     world_after w (the_watcher w) (nack_round self)).
Proof.
  intros id nack. rewrite failed_scope by done. fold id nack. cbn.
  by destruct (broker w _ nack).
Qed.

Lemma one_try_failed_scope self name (w : world Any OneTryWatcher.t) :
  let id := message_id (WatcherContext.message self) in
  let reject := message_reject (WatcherContext.message self)
                  (WatcherContext.extra_ack_args self) in
  WatcherContext.async_with self (raise (Builtin name)) w
  = match broker w (calls w ++ [watcher_add id; watcher_is_max id]) reject with
    | None =>
        (raised (Builtin name),
         world_after w (the_watcher w) (reject_round self))
    | Some error =>
        (raised error,
         world_after w (the_watcher w)
           [watcher_add id; watcher_is_max id; reject])
    end.
Proof. intros id reject. by rewrite failed_scope. Qed.

(** With a counter watcher, what a whole scope leaves in the memory: the
    attempt added on entry, removed again or not. *)
Lemma counter_scope_memory self (exc : option exception)
    (w : world Any CounterWatcher.t) :
  let id := message_id (WatcherContext.message self) in
  let after := (WatcherContext.async_with self (ending exc) w).2 in
  CounterWatcher.memory (the_watcher after)
  = CounterWatcher.memory (CounterWatcher.add (the_watcher w) id)
  ∨ CounterWatcher.memory (the_watcher after)
    = CounterWatcher.memory
        (CounterWatcher.remove (CounterWatcher.add (the_watcher w) id) id).
Proof.
  intros id after. subst after.
  assert (Hrm : ∀ s : CounterWatcher.t,
    CounterWatcher.memory
      (CounterWatcher.remove (CounterWatcher.is_max s id).2 id)
    = CounterWatcher.memory (CounterWatcher.remove s id)).
  { intros s. by rewrite !memory_remove, memory_is_max. }
  destruct exc as [[| | | | |name]|]; unfold ending.
  - right. by rewrite scope_SkipMessage.
  - left. by rewrite scope_bare_HandlerException.
  - rewrite scope_AckMessage. destruct (broker w _ _); [by left | by right].
  - rewrite scope_NackMessage. fold id.
    cbn [is_max add remove CounterWatcher_BaseWatcher].
    destruct (CounterWatcher.is_max _ _).1; destruct (broker w _ _);
      cbn [snd world_after the_watcher];
      rewrite ?Hrm, ?memory_is_max; first [by left | by right].
  - rewrite scope_RejectMessage. destruct (broker w _ _); [by left | by right].
  - rewrite failed_scope by done. fold id.
    cbn [is_max add remove CounterWatcher_BaseWatcher].
    destruct (CounterWatcher.is_max _ _).1; destruct (broker w _ _);
      cbn [snd world_after the_watcher];
      rewrite ?Hrm, ?memory_is_max; first [by left | by right].
  - rewrite scope_no_exception. destruct (broker w _ _); [by left | by right].
Qed.

End scopes_in_a_row.

(** X11.  With an [EndlessWatcher], a handler that keeps raising a plain
    exception is nacked every time, whether the calls on the message return
    or raise: after [n] scopes in a row the log holds [n] rounds of [add],
    [is_max], [nack] and no [reject] or [remove], and the watcher is what it
    was.  An exception leaves each scope: the handler's when [nack]
    returned, the error of [nack] when it raised. *)
Theorem endless_watcher_always_nacks {Any : Type} (self : WatcherContext.t Any)
    (name : string) (w : world Any EndlessWatcher.t) (n : nat) :
  let id := message_id (WatcherContext.message self) in
  let nack := message_nack (WatcherContext.message self)
                (WatcherContext.extra_ack_args self) in
  after_scopes n self (raise (Builtin name)) w
  = world_after w (the_watcher w) (concat (replicate n (nack_round self)))
  ∧ (WatcherContext.async_with self (raise (Builtin name))
       (after_scopes n self (raise (Builtin name)) w)).1
    = raised
        (match
           broker w
             (calls w ++ concat (replicate n (nack_round self))
                ++ [watcher_add id; watcher_is_max id])
             nack
         with
         | None => Builtin name
         | Some error => error
         end).
Proof.
  intros id nack.
  assert (Hafter : ∀ m : nat,
    after_scopes m self (raise (Builtin name)) w
    = world_after w (the_watcher w) (concat (replicate m (nack_round self)))).
  { induction m as [|m IH].
    - unfold after_scopes. simpl. by rewrite world_after_nil.
    - rewrite after_scopes_S, IH, endless_failed_scope. cbn [snd].
      rewrite world_after_after. by rewrite concat_replicate_end. }
  split; [apply Hafter |].
  rewrite Hafter, endless_failed_scope. fold id nack.
  cbn [fst world_after calls broker]. by rewrite <- app_assoc.
Qed.

(** X12.  With a [OneTryWatcher], a handler that raises a plain exception is
    rejected at once, every time, whether the calls on the message return
    or raise: after [n] scopes in a row [reject] has been called [n] times
    and [nack] never, and the watcher is what it was.  When the calls on the
    message return, the log holds [n] rounds of [add], [is_max], [reject],
    [remove], and the handler's exception leaves each scope. *)
Theorem one_try_watcher_always_rejects {Any : Type} (self : WatcherContext.t Any)
    (name : string) (w : world Any OneTryWatcher.t) (n : nat) :
  the_watcher (after_scopes n self (raise (Builtin name)) w) = the_watcher w
  ∧ count_calls is_reject (calls (after_scopes n self (raise (Builtin name)) w))
    = (count_calls is_reject (calls w) + n)%nat
  ∧ count_calls is_nack (calls (after_scopes n self (raise (Builtin name)) w))
    = count_calls is_nack (calls w)
  ∧ (calls_return w →
     after_scopes n self (raise (Builtin name)) w
     = world_after w (the_watcher w) (concat (replicate n (reject_round self)))
     ∧ (WatcherContext.async_with self (raise (Builtin name))
          (after_scopes n self (raise (Builtin name)) w)).1
       = raised (Builtin name)).
Proof.
  assert (Hcounts : ∀ m : nat,
    the_watcher (after_scopes m self (raise (Builtin name)) w) = the_watcher w
    ∧ count_calls is_reject
        (calls (after_scopes m self (raise (Builtin name)) w))
      = (count_calls is_reject (calls w) + m)%nat
    ∧ count_calls is_nack
        (calls (after_scopes m self (raise (Builtin name)) w))
      = count_calls is_nack (calls w)).
  { induction m as [|m (Hw & Hr & Hn)].
    - unfold after_scopes. simpl. repeat split; lia.
    - rewrite after_scopes_S, one_try_failed_scope.
      destruct (broker _ _ _); cbn [snd world_after the_watcher calls];
        rewrite !count_calls_app, Hw, Hr, Hn; unfold reject_round;
        count_new_calls; repeat split; lia. }
  destruct (Hcounts n) as (Hw & Hr & Hn).
  split; [exact Hw | split; [exact Hr | split; [exact Hn |]]].
  intros Hreturn.
  assert (Hafter : ∀ m : nat,
    after_scopes m self (raise (Builtin name)) w
    = world_after w (the_watcher w) (concat (replicate m (reject_round self)))).
  { induction m as [|m IH].
    - unfold after_scopes. simpl. by rewrite world_after_nil.
    - rewrite after_scopes_S, IH, one_try_failed_scope.
      cbn [world_after the_watcher calls broker]. rewrite Hreturn. cbn [snd].
      unfold world_after. cbn [the_watcher calls broker].
      by rewrite concat_replicate_end, app_assoc. }
  split; [apply Hafter |].
  rewrite Hafter, one_try_failed_scope.
  cbn [world_after the_watcher calls broker]. by rewrite Hreturn.
Qed.

(** X12 at three scopes in a world whose broker answers every call. *)
Lemma one_try_watcher_always_rejects_witness :
  calls_return
    {| the_watcher := OneTryWatcher.__init__ 0 None;
       calls := @nil (call Z);
       broker := λ _ _, None |}
  ∧ calls
      (after_scopes 3 example_context (raise (Builtin "RuntimeError"))
         {| the_watcher := OneTryWatcher.__init__ 0 None;
            calls := [];
            broker := λ _ _, None |})
    = concat (replicate 3 (reject_round example_context)).
Proof.
  assert (Hreturn : calls_return
    {| the_watcher := OneTryWatcher.__init__ 0 None;
       calls := @nil (call Z);
       broker := λ _ _, None |}) by (intros log c; reflexivity).
  split; [exact Hreturn |].
  exact (f_equal calls
           (proj1 (proj2 (proj2 (proj2
              (one_try_watcher_always_rejects example_context "RuntimeError"
                 {| the_watcher := OneTryWatcher.__init__ 0 None;
                    calls := [];
                    broker := λ _ _, None |} 3)))
              Hreturn))).
Defined.

(** X13.  With a [CounterWatcher] whose [max_tries] is [K >= 0] and which
    holds no entry for the message id (a fresh watcher, or one from which the
    id has been removed), and a handler that keeps raising a plain exception
    for that message: each of the first [K] scopes ends in [nack] and scope
    [K + 1] calls [reject], whether the calls on the message return or
    raise.  When that [reject] returns, [remove] follows and the watcher
    again holds no entry for the id, so the next failures get the same
    budget; when it raises, [remove] is not called and the count stays at
    [K + 1].  [max_tries] is unchanged. *)
Theorem counter_watcher_retry_budget {Any : Type} (self : WatcherContext.t Any)
    (name : string) (K : nat) (w : world Any CounterWatcher.t) :
  let id := message_id (WatcherContext.message self) in
  let reject := message_reject (WatcherContext.message self)
                  (WatcherContext.extra_ack_args self) in
  let handler : M Any CounterWatcher.t unit := raise (Builtin name) in
  let last := after_scopes (S K) self handler w in
  CounterWatcher.memory (the_watcher w) !! id = None →
  CounterWatcher.max_tries (the_watcher w) = Z.of_nat K →
  (∀ j : nat, (j ≤ K)%nat →
     calls (after_scopes j self handler w)
     = calls w ++ concat (replicate j (nack_round self)))
  ∧ match
      broker w
        (calls w ++ concat (replicate K (nack_round self))
           ++ [watcher_add id; watcher_is_max id])
        reject
    with
    | None =>
        calls last
        = calls w ++ concat (replicate K (nack_round self)) ++ reject_round self
        ∧ CounterWatcher.memory (the_watcher last) !! id = None
    | Some _ =>
        calls last
        = calls w ++ concat (replicate K (nack_round self))
            ++ [watcher_add id; watcher_is_max id; reject]
        ∧ Counter.__getitem__ (CounterWatcher.memory (the_watcher last)) id
          = Z.of_nat K + 1
    end
  ∧ CounterWatcher.max_tries (the_watcher last) = Z.of_nat K.
Proof.
  intros id reject handler last Hnone Hbudget.
  assert (Hinv : ∀ j : nat, (j ≤ K)%nat →
    calls (after_scopes j self handler w)
    = calls w ++ concat (replicate j (nack_round self))
    ∧ broker (after_scopes j self handler w) = broker w
    ∧ Counter.__getitem__
        (CounterWatcher.memory (the_watcher (after_scopes j self handler w))) id
      = Z.of_nat j
    ∧ CounterWatcher.max_tries (the_watcher (after_scopes j self handler w))
      = Z.of_nat K).
  { induction j as [|j IH]; intros Hj.
    - split; [| split; [done | split; [| done]]].
      + unfold after_scopes. simpl. by rewrite app_nil_r.
      + unfold after_scopes, Counter.__getitem__. simpl. by rewrite Hnone.
    - destruct IH as (Hcalls & Hbroker & Hcount & Hmax); [lia |].
      rewrite after_scopes_S.
      destruct (counter_failed_scope_retry self
                  (after_scopes j self handler w) name)
        as (_ & Hc & Hb & Hn & Hk).
      { fold id. rewrite Hcount, Hmax. lia. }
      fold handler id in Hc, Hb, Hn, Hk.
      rewrite Hc, Hb, Hn, Hk, Hcalls, Hbroker, Hcount, Hmax.
      split; [| split; [done | split; [lia | done]]].
      by rewrite concat_replicate_end, !app_assoc. }
  destruct (Hinv K) as (Hcalls & Hbroker & Hcount & Hmax); [lia |].
  split; [intros j Hj; by apply Hinv |].
  pose proof (counter_failed_scope_exhausted self
                (after_scopes K self handler w) name) as Hlast.
  cbv zeta in Hlast. fold handler id reject in Hlast.
  rewrite Hcount, Hmax, Hbroker, Hcalls, <- app_assoc in Hlast.
  specialize (Hlast ltac:(lia)).
  unfold last. rewrite after_scopes_S, Hlast.
  destruct (broker w _ reject) as [error|];
    cbn [snd world_after the_watcher calls]; rewrite Hcalls, <- app_assoc.
  - split; [split; [done |] |].
    + by rewrite memory_is_max, getitem_add, Hcount.
    + by rewrite max_tries_is_max.
  - split; [split; [done | apply memory_remove_lookup] |].
    change (CounterWatcher.max_tries (CounterWatcher.remove ?s ?k))
      with (CounterWatcher.max_tries s).
    by rewrite max_tries_is_max.
Qed.

(** X13 on a fresh watcher with [max_tries = 3], at the second scope. *)
Lemma counter_watcher_retry_budget_witness :
  CounterWatcher.memory (CounterWatcher.__init__ 3 None)
  !! message_id (WatcherContext.message example_context) = None
  ∧ CounterWatcher.max_tries (CounterWatcher.__init__ 3 None) = Z.of_nat 3
  ∧ (2 ≤ 3)%nat
  ∧ calls
      (after_scopes 2 example_context (raise (Builtin "RuntimeError"))
         {| the_watcher := CounterWatcher.__init__ 3 None;
            calls := [];
            broker := λ _ _, None |})
    = [] ++ concat (replicate 2 (nack_round example_context)).
Proof.
  split; [reflexivity | split; [reflexivity | split; [lia |]]].
  exact (proj1 (counter_watcher_retry_budget example_context "RuntimeError" 3
                  {| the_watcher := CounterWatcher.__init__ 3 None;
                     calls := [];
                     broker := λ _ _, None |} eq_refl eq_refl)
           2%nat ltac:(lia)).
Defined.

(** X14.  With a counter watcher, a scope whose handler returned or raised
    [AckMessage] or [RejectMessage], and which nothing leaves (the call on
    the message returned), leaves no entry for the message id, whatever the
    watcher held before; so does a scope whose handler raised
    [SkipMessage].  When instead the call on the message raised, so that
    its error leaves the scope, [remove] has not run and the attempt added
    on entry stays recorded. *)
Theorem finished_scope_clears_the_id {Any : Type} (self : WatcherContext.t Any)
    (exc : option exception) (w : world Any CounterWatcher.t) :
  let id := message_id (WatcherContext.message self) in
  let scope := WatcherContext.async_with self (ending exc) w in
  exc ∈ [None; Some AckMessage; Some RejectMessage] →
  (scope.1 = returned tt →
   CounterWatcher.memory (the_watcher scope.2) !! id = None)
  ∧ (∀ error : exception, scope.1 = raised error →
     Counter.__getitem__ (CounterWatcher.memory (the_watcher scope.2)) id
     = Counter.__getitem__ (CounterWatcher.memory (the_watcher w)) id + 1)
  ∧ (calls_return w → scope.1 = returned tt)
  ∧ CounterWatcher.memory
      (the_watcher (WatcherContext.async_with self (raise SkipMessage) w).2)
    !! id
    = None.
Proof.
  intros id scope Hexc.
  assert (Hskip : CounterWatcher.memory
    (the_watcher (WatcherContext.async_with self (raise SkipMessage) w).2)
    !! id = None).
  { rewrite scope_SkipMessage. apply memory_remove_lookup. }
  assert (Hcases : ∃ c : call Any,
    scope
    = match broker w (calls w ++ [watcher_add id]) c with
      | None =>
          (returned tt,
           world_after w (remove (add (the_watcher w) id) id)
             [watcher_add id; c; watcher_remove id])
      | Some error =>
          (raised error, world_after w (add (the_watcher w) id) [watcher_add id; c])
      end).
  { subst scope. repeat (apply elem_of_cons in Hexc as [->|Hexc]).
    - eexists. apply scope_no_exception.
    - eexists. apply scope_AckMessage.
    - eexists. apply scope_RejectMessage.
    - by apply elem_of_nil in Hexc. }
  destruct Hcases as [c Hscope]. rewrite Hscope.
  split; [| split; [| split; [| exact Hskip]]].
  - destruct (broker w _ c); [done |]. intros _. apply memory_remove_lookup.
  - intros error. destruct (broker w _ c); [| done]. intros _.
    apply getitem_add.
  - intros Hreturn. by rewrite Hreturn.
Qed.

(** X14 at [RejectMessage], after two earlier attempts, with a broker that
    answers every call. *)
Lemma finished_scope_clears_the_id_witness :
  Some RejectMessage ∈ [None; Some AckMessage; Some RejectMessage]
  ∧ (WatcherContext.async_with example_context (ending (Some RejectMessage))
       {| the_watcher := add_times 2 "m" (CounterWatcher.__init__ 2 None);
          calls := [];
          broker := λ _ _, None |}).1
    = returned tt
  ∧ CounterWatcher.memory
      (the_watcher
         (WatcherContext.async_with example_context (ending (Some RejectMessage))
            {| the_watcher := add_times 2 "m" (CounterWatcher.__init__ 2 None);
               calls := [];
               broker := λ _ _, None |}).2)
    !! message_id (WatcherContext.message example_context)
    = None.
Proof.
  assert (Hin : Some RejectMessage
    ∈ [None; Some AckMessage; Some RejectMessage]).
  { apply elem_of_cons. right. apply elem_of_cons. right.
    apply elem_of_cons. left. reflexivity. }
  split; [exact Hin | split; [reflexivity |]].
  exact (proj1 (finished_scope_clears_the_id example_context
                  (Some RejectMessage)
                  {| the_watcher :=
                       add_times 2 "m" (CounterWatcher.__init__ 2 None);
                     calls := [];
                     broker := λ _ _, None |} Hin) eq_refl).
Defined.

(** X15.  With a counter watcher whose stored counts are all positive, a
    scope for one message, however it ends, leaves the entry of every other
    message id as it was, and leaves all stored counts positive. *)
Theorem scope_leaves_other_ids_alone {Any : Type} (self : WatcherContext.t Any)
    (exc : option exception) (w : world Any CounterWatcher.t) (k : string) :
  positive_counts (the_watcher w) →
  message_id (WatcherContext.message self) ≠ k →
  CounterWatcher.memory
    (the_watcher (WatcherContext.async_with self (ending exc) w).2) !! k
  = CounterWatcher.memory (the_watcher w) !! k
  ∧ positive_counts
      (the_watcher (WatcherContext.async_with self (ending exc) w).2).
Proof.
  intros Hpos Hne.
  set (id := message_id (WatcherContext.message self)) in *.
  assert (Hentered : positive_counts (CounterWatcher.add (the_watcher w) id))
    by by apply positive_add.
  unfold positive_counts.
  destruct (counter_scope_memory self exc w) as [-> | ->]; fold id.
  - split; [by apply memory_add_lookup_ne | exact Hentered].
  - split; [| apply positive_remove].
    rewrite memory_remove_positive_lookup_ne by done.
    by apply memory_add_lookup_ne.
Qed.

(** X15 at a failed scope for ["m"] while ["a"] has two attempts. *)
Lemma scope_leaves_other_ids_alone_witness :
  positive_counts (add_times 2 "a" (CounterWatcher.__init__ 2 None))
  ∧ message_id (WatcherContext.message example_context) ≠ "a"
  ∧ CounterWatcher.memory
      (the_watcher
         (WatcherContext.async_with example_context
            (ending (Some (Builtin "RuntimeError")))
            {| the_watcher := add_times 2 "a" (CounterWatcher.__init__ 2 None);
               calls := [];
               broker := λ _ _, None |}).2) !! "a"
    = CounterWatcher.memory
        (add_times 2 "a" (CounterWatcher.__init__ 2 None)) !! "a".
Proof.
  assert (Hpos : positive_counts
    (add_times 2 "a" (CounterWatcher.__init__ 2 None))).
  { apply positive_add, positive_add, positive_init. }
  assert (Hne : message_id (WatcherContext.message example_context) ≠ "a")
    by discriminate.
  split; [exact Hpos | split; [exact Hne |]].
  exact (proj1 (scope_leaves_other_ids_alone example_context
                  (Some (Builtin "RuntimeError"))
                  {| the_watcher :=
                       add_times 2 "a" (CounterWatcher.__init__ 2 None);
                     calls := [];
                     broker := λ _ _, None |} "a" Hpos Hne)).
Defined.
